(** * Ledger and holdings of the trading back end

    A shallow embedding of [trading_app/models.py], [trading_app/serializers.py]
    and [trading_app/views.py].

    Conventions of the embedding.
    - A [DecimalField(decimal_places=2)] column holds a fixed-point number with
      two places.  Such an amount is represented by the integer number of
      hundredths it denotes ([500.00] is [50000]); sums, differences and
      products by an integer of such amounts are exact.
    - Any other decimal is a rational number of type [Q].  The quotient of two
      decimals is rounded to the 28 significant digits of the default decimal
      context, ties to even; a product by 100 only moves the point.
    - A [float] is a value of an abstract type with a conversion from
      decimals, an addition and a comparison.
    - A table of the relational store is the list of its rows, oldest first,
      inside a [Database] record; a request handler is a function in a state
      and exception monad over it.  [Model.save()] and [objects.create()]
      write rows without running field validators, as Django does; the digit
      limit of a column is checked where a serializer validates a payload
      and not by the store. *)

From Stdlib Require Import ZArith QArith Qround Lia List String Bool.
From Stdlib Require Import Sorted Permutation.
From Stdlib Require Import Qpower Qabs Lqa.
Import ListNotations.

Local Open Scope Z_scope.

(** ** Exceptions and the exception monad *)

Inductive Exception :=
| KeyError (key : string)
| ValidationError (fields : list string)
| IntegrityError
| NotAuthenticated
| DivisionByZero
| InvalidOperation.

Inductive result (A : Type) :=
| Ok (a : A)
| Raise (e : Exception).
Arguments Ok {A} a.
Arguments Raise {A} e.

Definition result_bind {A B} (r : result A) (k : A -> result B) : result B :=
  match r with
  | Ok a => k a
  | Raise e => Raise e
  end.

Declare Scope result_scope.
Delimit Scope result_scope with result.
Notation "'let?' x := r 'in' k" := (result_bind r (fun x => k))
  (at level 10, x name, r at level 100, k at level 200) : result_scope.

(** A dictionary subscript [d[key]]: [KeyError] when the key is absent. *)
Definition getitem {A} (key : string) (entry : option A) : result A :=
  match entry with
  | Some a => Ok a
  | None => Raise (KeyError key)
  end.

(** ** Python's numbers *)

Module decimal.
(** The value of a two-place amount as a rational. *)
Definition Decimal (hundredths : Z) : Q := hundredths # 100.

Definition round_half_even (q : Q) : Z :=
  let n := Qfloor q in
  match Qcompare (q - inject_Z n) (1 # 2) with
  | Lt => n
  | Gt => n + 1
  | Eq => if Z.even n then n else n + 1
  end.

(** The precision of the default context. *)
Definition prec : Z := 28.

(** The number of decimal digits of a positive integer. *)
Fixpoint digits_fuel (fuel : nat) (n : Z) : Z :=
  match fuel with
  | O => 0
  | S fuel' => if n <? 10 then 1 else 1 + digits_fuel fuel' (n / 10)
  end.

Definition digits (n : Z) : Z := digits_fuel (S (Z.to_nat (Z.log2 n))) n.

(** The exponent [E] of the leading digit of a positive rational:
    [10^E <= n/d < 10^(E+1)]. *)
Definition adjusted (n d : Z) : Z :=
  let k := digits n - digits d in
  let reaches := if 0 <=? k then d * 10 ^ k <=? n else d <=? n * 10 ^ (- k) in
  if reaches then k else k - 1.

(** Rounding to the precision of the context: at most [prec] significant
    digits, ties to the even neighbour. *)
Definition round_context (q : Q) : Q :=
  if Qeq_bool q 0 then 0%Q
  else
    let e := adjusted (Z.abs (Qnum q)) (Zpos (Qden q)) - (prec - 1) in
    (inject_Z (round_half_even (q / Qpower 10 e)) * Qpower 10 e)%Q.

(** The quotient of two decimals as the context computes it. *)
Definition quotient (a b : Q) : Q := round_context (a / b).

(** [Decimal.__truediv__] under the default context, which traps both
    division signals. *)
Definition truediv (a b : Q) : result Q :=
  if Qeq_bool b 0 then
    Raise (if Qeq_bool a 0 then InvalidOperation else DivisionByZero)
  else Ok (quotient a b).

(** [round(x, 2)] of a decimal: to two places, ties to the even
    neighbour. *)
Definition round2 (q : Q) : Q := round_half_even (q * 100) # 100.
End decimal.

Module builtins.
(** [sum] of a sequence of numbers, starting from [0]. *)
Definition sum (xs : list Z) : Z := fold_left Z.add xs 0.
End builtins.

(** ** models.py *)

Module User.
Record t := mk {
  id : Z;
  balance : Z;          (* DecimalField(max_digits=15, decimal_places=2) *)
  is_staff : bool
}.

Definition set_balance (self : t) (b : Z) : t :=
  {| id := id self; balance := b; is_staff := is_staff self |}.
End User.

Module Transaction.
Inductive TRANSACTION_TYPES :=
| deposit | withdrawal | buy | sell | dividend | fee.

Record t := mk {
  id : Z;
  user : Z;                              (* ForeignKey(User) *)
  transaction_type : TRANSACTION_TYPES;
  debit : Z;
  credit : Z;
  description : string;
  balance_after : Z
}.

(** The stored value of a kind: the first component of its pair in
    [TRANSACTION_TYPES]. *)
Definition value (kind : TRANSACTION_TYPES) : string :=
  match kind with
  | deposit => "deposit"
  | withdrawal => "withdrawal"
  | buy => "buy"
  | sell => "sell"
  | dividend => "dividend"
  | fee => "fee"
  end.
End Transaction.

Module Holding.
Record t := mk {
  id : Z;
  user : Z;                              (* ForeignKey(User) *)
  stock : string;
  quantity : Z;                          (* PositiveIntegerField *)
  buying_price : Z;
  current_price : Z
}.

Definition total_invested (self : t) : Z := quantity self * buying_price self.

Definition current_value (self : t) : Z := quantity self * current_price self.

Definition profit_loss (self : t) : Z := current_value self - total_invested self.

Definition profit_loss_percentage (self : t) : result Q :=
  if 0 <? total_invested self then
    (let? ratio := decimal.truediv (decimal.Decimal (profit_loss self))
                                   (decimal.Decimal (total_invested self)) in
     Ok (ratio * 100)%Q)%result
  else Ok 0%Q.
End Holding.

(** The number that [Holding.profit_loss_percentage] returns. *)
Definition percentage (h : Holding.t) : Q :=
  if 0 <? Holding.total_invested h then
    (decimal.quotient (decimal.Decimal (Holding.profit_loss h))
                      (decimal.Decimal (Holding.total_invested h)) * 100)%Q
  else 0%Q.

(** ** The relational store *)

Record Database := mkDatabase {
  trading_user : list User.t;
  trading_transaction : list Transaction.t;
  trading_holding : list Holding.t;
  transaction_id_seq : Z;                       (* next AutoField value *)
  holding_id_seq : Z
}.

(** A request handler: it may raise, and the store it leaves behind is the
    one at the point of the exception (nothing in the source opens a
    database transaction). *)
Definition M (A : Type) : Type := Database -> result A * Database.

Definition bind {A B} (m : M A) (k : A -> M B) : M B :=
  fun db =>
    match m db with
    | (Ok a, db') => k a db'
    | (Raise e, db') => (Raise e, db')
    end.
Definition lift {A} (r : result A) : M A := fun db => (r, db).

Declare Scope handler_scope.
Delimit Scope handler_scope with handler.
Notation "'do' x <- m ; k" := (bind m (fun x => k))
  (at level 10, x name, m at level 100, k at level 200) : handler_scope.

Module Objects.
(** [User.objects.get(pk=...)]. *)
Definition get_user (pk : Z) (db : Database) : option User.t :=
  find (fun row => User.id row =? pk) (trading_user db).

(** [user.save()]: an UPDATE of the row with the object's primary key,
    and an INSERT when no row has it. *)
Definition save_user (user : User.t) : M unit :=
  fun db =>
    let rows := trading_user db in
    let rows' :=
      if existsb (fun row => User.id row =? User.id user) rows
      then map (fun row => if User.id row =? User.id user then user else row) rows
      else rows ++ [user] in
    (Ok tt,
     {| trading_user := rows';
        trading_transaction := trading_transaction db;
        trading_holding := trading_holding db;
        transaction_id_seq := transaction_id_seq db;
        holding_id_seq := holding_id_seq db |}).

(** [Transaction.objects.create] with the validated fields: a new row with
    the next id. *)
Definition create_transaction
    (user : User.t) (kind : Transaction.TRANSACTION_TYPES)
    (debit credit : Z) (description : string) (balance_after : Z)
  : M Transaction.t :=
  fun db =>
    let row := Transaction.mk (transaction_id_seq db) (User.id user) kind
                              debit credit description balance_after in
    (Ok row,
     {| trading_user := trading_user db;
        trading_transaction := trading_transaction db ++ [row];
        trading_holding := trading_holding db;
        transaction_id_seq := transaction_id_seq db + 1;
        holding_id_seq := holding_id_seq db |}).
End Objects.

Module lookups.
(** The [iexact] field lookup: equality that ignores the case of the letters
    [A] to [Z]. *)
Definition upper_ascii (c : Ascii.ascii) : Ascii.ascii :=
  let n := Ascii.N_of_ascii c in
  if ((97 <=? n) && (n <=? 122))%N then Ascii.ascii_of_N (n - 32) else c.

Fixpoint upper (s : string) : string :=
  match s with
  | EmptyString => EmptyString
  | String c rest => String (upper_ascii c) (upper rest)
  end.

Definition iexact (a b : string) : bool := String.eqb (upper a) (upper b).
End lookups.

(** ** serializers.py *)

Module TransactionCreateSerializer.
(** [fields = ['transaction_type', 'debit', 'credit', 'description']].
    [debit] and [credit] have a model default, so the payload may omit
    them and the validated dictionary then has no such key. *)
Record validated_data := mk {
  transaction_type : Transaction.TRANSACTION_TYPES;
  debit : option Z;
  credit : option Z;
  description : string
}.

Definition create (request_user : User.t) (validated_data : validated_data)
  : M Transaction.t :=
  (let user := request_user in
   let current_balance := User.balance user in
   do credit <- lift (getitem "credit" (credit validated_data));
   do debit <- lift (getitem "debit" (debit validated_data));
   let net_amount := credit - debit in
   let user := User.set_balance user (User.balance user + net_amount) in
   do _ <- Objects.save_user user;
   let balance_after := User.balance user in
   Objects.create_transaction user (transaction_type validated_data)
     debit credit (description validated_data) balance_after)%handler.
End TransactionCreateSerializer.

Module HoldingCreateSerializer.
(** [fields = ['stock', 'quantity', 'buying_price', 'current_price']]: the
    payload once parsed (a stripped string, an integer, two amounts).  None
    of the four columns has a default, so all four are required. *)
Record data := mk {
  stock : string;
  quantity : Z;
  buying_price : Z;
  current_price : Z
}.

(** [MinValueValidator(limit)]. *)
Definition MinValueValidator (limit value : Z) : bool := limit <=? value.

(** [DecimalField(max_digits, decimal_places=2)]: at most [max_digits]
    digits in all, two of them after the point. *)
Definition max_digits_ok (max_digits : Z) (value : Z) : bool :=
  Z.abs value <? 10 ^ max_digits.

(** [CharField(max_length)] of a required, non-blank column. *)
Definition CharField_ok (max_length : nat) (value : string) : bool :=
  negb (String.eqb value "") && (String.length value <=? max_length)%nat.

Section Backend.
(** The upper end of [integer_field_range("PositiveIntegerField")], which
    depends on the database back end; the lower end is [0] on all. *)
Variable positive_integer_max : Z.

Definition stock_ok (d : data) : bool := CharField_ok 10 (stock d).

Definition quantity_ok (d : data) : bool :=
  MinValueValidator 0 (quantity d) && (quantity d <=? positive_integer_max).

Definition buying_price_ok (d : data) : bool :=
  MinValueValidator 1 (buying_price d) && max_digits_ok 10 (buying_price d).

Definition current_price_ok (d : data) : bool :=
  MinValueValidator 1 (current_price d) && max_digits_ok 10 (current_price d).

(** The names of the fields whose validation failed, in field order. *)
Definition errors (d : data) : list string :=
  (if stock_ok d then [] else ["stock"%string]) ++
  (if quantity_ok d then [] else ["quantity"%string]) ++
  (if buying_price_ok d then [] else ["buying_price"%string]) ++
  (if current_price_ok d then [] else ["current_price"%string]).

(** [serializer.is_valid(raise_exception=True)]. *)
Definition is_valid (d : data) : result data :=
  match errors d with
  | [] => Ok d
  | fields => Raise (ValidationError fields)
  end.
End Backend.

(** [unique_together = ['user', 'stock']], checked by the store. *)
Definition duplicate (user : Z) (symbol : string) (rows : list Holding.t) : bool :=
  existsb (fun h => (Holding.user h =? user) && String.eqb (Holding.stock h) symbol) rows.

(** [super().create(validated_data)] is [Holding.objects.create]: the store
    refuses a negative [PositiveIntegerField] and a second row for the same
    user and stock. *)
Definition create (request_user : User.t) (validated_data : data) : M Holding.t :=
  fun db =>
    let user := request_user in
    if (quantity validated_data <? 0)
       || duplicate (User.id user) (stock validated_data) (trading_holding db) then
      (Raise IntegrityError, db)
    else
      let row := Holding.mk (holding_id_seq db) (User.id user)
                   (stock validated_data) (quantity validated_data)
                   (buying_price validated_data) (current_price validated_data) in
      (Ok row,
       {| trading_user := trading_user db;
          trading_transaction := trading_transaction db;
          trading_holding := trading_holding db ++ [row];
          transaction_id_seq := transaction_id_seq db;
          holding_id_seq := holding_id_seq db + 1 |}).
End HoldingCreateSerializer.

Module TransactionSerializer.
(** The writable fields of [fields]: [user] and the four of the create
    serializer.  [user] is required and arrives as the row it names. *)
Record validated_data := mk {
  user : User.t;
  transaction_type : Transaction.TRANSACTION_TYPES;
  debit : option Z;
  credit : option Z;
  description : string
}.

Definition create (validated_data : validated_data) : M Transaction.t :=
  (let user := user validated_data in
   let current_balance := User.balance user in
   do credit <- lift (getitem "credit" (credit validated_data));
   do debit <- lift (getitem "debit" (debit validated_data));
   let net_amount := credit - debit in
   let user := User.set_balance user (User.balance user + net_amount) in
   do _ <- Objects.save_user user;
   let balance_after := User.balance user in
   Objects.create_transaction user (transaction_type validated_data)
     debit credit (description validated_data) balance_after)%handler.
End TransactionSerializer.

Module UserSerializer.
(** The part of a payload that reaches the columns of [User.t]: [balance]
    (writable, it is not among [read_only_fields]) and the two write-only
    password fields.  Under [partial=True] each of them may be absent. *)
Record data := mk {
  balance : option Z;
  password : option string;
  password_confirm : option string
}.

Definition validate (attrs : data) : result data :=
  (let? password := getitem "password" (password attrs) in
   let? password_confirm := getitem "password_confirm" (password_confirm attrs) in
   if String.eqb password password_confirm then Ok attrs
   else Raise (ValidationError ["non_field_errors"%string]))%result.


(** The checks of the three fields: the validator and the digits of the
    [balance] column, [min_length=8], and a confirmation that is not blank. *)
Definition balance_ok (d : data) : bool :=
  match balance d with
  | Some value =>
      HoldingCreateSerializer.MinValueValidator 0 value
      && HoldingCreateSerializer.max_digits_ok 15 value
  | None => true
  end.

Definition password_ok (d : data) : bool :=
  match password d with
  | Some value => (8 <=? String.length value)%nat
  | None => true
  end.

Definition password_confirm_ok (d : data) : bool :=
  match password_confirm d with
  | Some value => negb (String.eqb value "")
  | None => true
  end.

Definition errors (d : data) : list string :=
  (if balance_ok d then [] else ["balance"%string]) ++
  (if password_ok d then [] else ["password"%string]) ++
  (if password_confirm_ok d then [] else ["password_confirm"%string]).

(** [serializer.is_valid()] of a partial update: the field checks, then
    [validate] when all of them pass. *)
Definition is_valid (d : data) : result data :=
  match errors d with
  | [] => validate d
  | fields => Raise (ValidationError fields)
  end.
End UserSerializer.

Module UserRegistrationSerializer.
(** Both password fields are required at registration. *)
Record data := mk {
  password : string;
  password_confirm : string
}.

Definition validate (attrs : data) : result data :=
  if String.eqb (password attrs) (password_confirm attrs) then Ok attrs
  else Raise (ValidationError ["non_field_errors"%string]).
End UserRegistrationSerializer.

Module UserLoginSerializer.
Section Authenticate.
(** [django.contrib.auth.authenticate] and the [is_active] flag of the
    account it returns. *)
Variable account : Type.
Variable authenticate : string -> string -> option account.
Variable is_active : account -> bool.

Record data := mk {
  email : option string;
  password : option string
}.

Inductive outcome :=
| Validated (email password : string) (user : account)
| Rejected (message : string).

(** The truth value of [attrs.get(key)]: a string that is not empty. *)
Definition truthy (entry : option string) : option string :=
  match entry with
  | Some value => if String.eqb value "" then None else Some value
  | None => None
  end.

Definition validate (attrs : data) : outcome :=
  match truthy (email attrs), truthy (password attrs) with
  | Some email, Some password =>
      match authenticate email password with
      | None => Rejected "Invalid credentials"
      | Some user =>
          if is_active user then Validated email password user
          else Rejected "User account is disabled"
      end
  | _, _ => Rejected "Must include email and password"
  end.
End Authenticate.
End UserLoginSerializer.

Module PortfolioSummarySerializer.
(** [DecimalField(max_digits, decimal_places=2).to_representation]: the value
    quantized to two places under a context of [max_digits] digits, which
    signals [InvalidOperation] when the result needs more. *)
Definition DecimalField_amount (max_digits : Z) (hundredths : Z) : result Z :=
  if 10 ^ max_digits <=? Z.abs hundredths then Raise InvalidOperation
  else Ok hundredths.

Definition DecimalField (max_digits : Z) (value : Q) : result Z :=
  DecimalField_amount max_digits (decimal.round_half_even (value * 100)).

(** What [PortfolioViewSet.summary] hands over, and what is rendered: the
    amounts and the percentage in hundredths. *)
Record data := mk {
  total_balance : Z;
  total_invested : Z;
  total_current_value : Z;
  total_profit_loss : Z;
  total_profit_loss_percentage : Q;
  holdings_count : nat;
  transactions_count : nat
}.

Record representation := mk_representation {
  r_total_balance : Z;
  r_total_invested : Z;
  r_total_current_value : Z;
  r_total_profit_loss : Z;
  r_total_profit_loss_percentage : Z;
  r_holdings_count : nat;
  r_transactions_count : nat
}.

Definition to_representation (instance : data) : result representation :=
  (let? balance := DecimalField_amount 15 (total_balance instance) in
   let? invested := DecimalField_amount 15 (total_invested instance) in
   let? current_value := DecimalField_amount 15 (total_current_value instance) in
   let? profit_loss := DecimalField_amount 15 (total_profit_loss instance) in
   let? percentage := DecimalField 5 (total_profit_loss_percentage instance) in
   Ok {| r_total_balance := balance;
         r_total_invested := invested;
         r_total_current_value := current_value;
         r_total_profit_loss := profit_loss;
         r_total_profit_loss_percentage := percentage;
         r_holdings_count := holdings_count instance;
         r_transactions_count := transactions_count instance |})%result.
End PortfolioSummarySerializer.

(** ** views.py *)

(** [request.user]: the row of the authenticated account, read from the
    store at the start of each request. *)
Definition request_user (account : Z) : M User.t :=
  fun db =>
    match Objects.get_user account db with
    | Some user => (Ok user, db)
    | None => (Raise NotAuthenticated, db)
    end.

Module TransactionViewSet.
(** [perform_create]: [serializer.save(user=self.request.user)], which
    runs [TransactionCreateSerializer.create]. *)
Definition perform_create (account : Z)
    (validated_data : TransactionCreateSerializer.validated_data)
  : M Transaction.t :=
  (do user <- request_user account;
   TransactionCreateSerializer.create user validated_data)%handler.

(** The operation [recordTransaction(account, kind, debit, credit,
    description)]: a request that supplies both amounts. *)
Definition recordTransaction (account : Z) (kind : Transaction.TRANSACTION_TYPES)
    (debit credit : Z) (description : string) : M Transaction.t :=
  perform_create account
    (TransactionCreateSerializer.mk kind (Some debit) (Some credit) description).

(** [Meta.ordering = ['-date']]: newest row first. *)
Definition objects_all (db : Database) : list Transaction.t :=
  rev (trading_transaction db).

Definition get_queryset (user : User.t) (db : Database) : list Transaction.t :=
  if User.is_staff user then objects_all db
  else List.filter (fun row => Transaction.user row =? User.id user) (objects_all db).

(** [type] is the query parameter, absent or a string; an empty string is
    false like an absent one. *)
Definition by_type (user : User.t) (type : option string) (db : Database)
  : list Transaction.t :=
  match type with
  | Some transaction_type =>
      if String.eqb transaction_type "" then get_queryset user db
      else List.filter
             (fun row => String.eqb (Transaction.value (Transaction.transaction_type row))
                                    transaction_type)
             (get_queryset user db)
  | None => get_queryset user db
  end.

Definition recent (user : User.t) (db : Database) : list Transaction.t :=
  firstn 10 (get_queryset user db).

Record summary_response := mk_summary {
  total_debits : Z;
  total_credits : Z;
  net_amount : Z;
  transaction_count : nat;
  current_balance : Z
}.

(** [Sum(...) or Decimal('0.00')]: the sum over no row is [None], which
    [or] turns into zero. *)
Definition summary (user : User.t) (db : Database) : summary_response :=
  let queryset := get_queryset user db in
  let total_debits := builtins.sum (map Transaction.debit queryset) in
  let total_credits := builtins.sum (map Transaction.credit queryset) in
  let transaction_count := List.length queryset in
  {| total_debits := total_debits;
     total_credits := total_credits;
     net_amount := total_credits - total_debits;
     transaction_count := transaction_count;
     current_balance := User.balance user |}.
End TransactionViewSet.

Module HoldingViewSet.
(** [Meta.ordering = ['-date_purchased']]: newest row first. *)
Definition objects_all (db : Database) : list Holding.t := rev (trading_holding db).

Definition get_queryset (user : User.t) (db : Database) : list Holding.t :=
  if User.is_staff user then objects_all db
  else List.filter (fun h => Holding.user h =? User.id user) (objects_all db).

(** [create] of the model view set: validate, then [perform_create], which
    runs [HoldingCreateSerializer.create]. *)
Definition create (positive_integer_max : Z) (account : Z)
    (d : HoldingCreateSerializer.data) : M Holding.t :=
  (do user <- request_user account;
   do validated_data <- lift (HoldingCreateSerializer.is_valid positive_integer_max d);
   HoldingCreateSerializer.create user validated_data)%handler.

Definition profitable (user : User.t) (db : Database) : list Holding.t :=
  List.filter
    (fun h => Holding.quantity h * Holding.buying_price h
              <? Holding.quantity h * Holding.current_price h)
    (get_queryset user db).

Definition losing (user : User.t) (db : Database) : list Holding.t :=
  List.filter
    (fun h => Holding.quantity h * Holding.current_price h
              <? Holding.quantity h * Holding.buying_price h)
    (get_queryset user db).

Record summary_response := mk_summary {
  total_invested : Z;
  total_current_value : Z;
  total_profit_loss : Z;
  total_profit_loss_percentage : Q;
  holdings_count : nat
}.

Definition summary (user : User.t) (db : Database) : result summary_response :=
  let queryset := get_queryset user db in
  let total_invested := builtins.sum (map Holding.total_invested queryset) in
  let total_current_value := builtins.sum (map Holding.current_value queryset) in
  let total_profit_loss := total_current_value - total_invested in
  (let? total_profit_loss_percentage :=
     (if 0 <? total_invested then
        let? ratio := decimal.truediv (decimal.Decimal total_profit_loss)
                                      (decimal.Decimal total_invested) in
        Ok (ratio * 100)%Q
      else Ok 0%Q) in
   Ok {| total_invested := total_invested;
         total_current_value := total_current_value;
         total_profit_loss := total_profit_loss;
         total_profit_loss_percentage := decimal.round2 total_profit_loss_percentage;
         holdings_count := List.length queryset |})%result.

(** [stock] is the query parameter, absent or a string. *)
Definition by_stock (user : User.t) (stock : option string) (db : Database)
  : list Holding.t :=
  match stock with
  | Some symbol =>
      if String.eqb symbol "" then get_queryset user db
      else List.filter (fun h => lookups.iexact (Holding.stock h) symbol)
                       (get_queryset user db)
  | None => get_queryset user db
  end.
End HoldingViewSet.

Module PortfolioViewSet.
Section Floats.
(** Python's [float]: the conversion of a decimal, the sum, the value of
    the integer [0] and the comparison [<=] of two numbers. *)
Variable float : Type.
Variable float_of_decimal : Q -> float.
Variable float_add : float -> float -> float.
Variable float_zero : float.
Variable float_le : float -> float -> bool.

Record performance_item := mk_item {
  stock : string;
  profit_loss : float;
  profit_loss_percentage : float
}.

Inductive performance_response :=
| NoHoldings             (* message 'No holdings found', total_return 0 *)
| Performance (total_return : float)
              (best_performer worst_performer : option performance_item)
              (all_performances : list performance_item).

Definition holdings_of (user : User.t) (db : Database) : list Holding.t :=
  List.filter (fun h => Holding.user h =? User.id user)
              (HoldingViewSet.objects_all db).

(** The dictionary that the loop builds for one holding. *)
Definition item_of (holding : Holding.t) : performance_item :=
  {| stock := Holding.stock holding;
     profit_loss := float_of_decimal (decimal.Decimal (Holding.profit_loss holding));
     profit_loss_percentage := float_of_decimal (percentage holding) |}.

(** The loop that fills [performance_data]. *)
Fixpoint collect (holdings : list Holding.t) : result (list performance_item) :=
  match holdings with
  | [] => Ok []
  | holding :: rest =>
      (let? percentage := Holding.profit_loss_percentage holding in
       let item := {| stock := Holding.stock holding;
                      profit_loss :=
                        float_of_decimal (decimal.Decimal (Holding.profit_loss holding));
                      profit_loss_percentage := float_of_decimal percentage |} in
       let? items := collect rest in
       Ok (item :: items))%result
  end.

(** [list.sort(key=..., reverse=True)] is a stable sort; on keys that are
    totally ordered its result is the one of a stable insertion sort. *)
Fixpoint insert (x : performance_item) (l : list performance_item)
  : list performance_item :=
  match l with
  | [] => [x]
  | y :: l' =>
      if float_le (profit_loss_percentage y) (profit_loss_percentage x)
      then x :: y :: l'
      else y :: insert x l'
  end.

Definition sort (l : list performance_item) : list performance_item :=
  fold_right insert [] l.

Definition performance (user : User.t) (db : Database) : result performance_response :=
  let holdings := holdings_of user db in
  match holdings with
  | [] => Ok NoHoldings
  | _ =>
      (let? performance_data := collect holdings in
       let performance_data := sort performance_data in
       let total_return :=
         fold_left float_add (map profit_loss performance_data) float_zero in
       Ok (Performance total_return
             (hd_error performance_data) (hd_error (rev performance_data))
             performance_data))%result
  end.
End Floats.

(** The dictionary [data] of [summary]. *)
Definition summary_data (user : User.t) (db : Database)
  : result PortfolioSummarySerializer.data :=
  let holdings :=
    List.filter (fun h => Holding.user h =? User.id user) (HoldingViewSet.objects_all db) in
  let transactions :=
    List.filter (fun row => Transaction.user row =? User.id user)
                (TransactionViewSet.objects_all db) in
  let total_invested := builtins.sum (map Holding.total_invested holdings) in
  let total_current_value := builtins.sum (map Holding.current_value holdings) in
  let total_profit_loss := total_current_value - total_invested in
  (let? total_profit_loss_percentage :=
     (if 0 <? total_invested then
        let? ratio := decimal.truediv (decimal.Decimal total_profit_loss)
                                      (decimal.Decimal total_invested) in
        Ok (ratio * 100)%Q
      else Ok 0%Q) in
   Ok {| PortfolioSummarySerializer.total_balance := User.balance user;
         PortfolioSummarySerializer.total_invested := total_invested;
         PortfolioSummarySerializer.total_current_value := total_current_value;
         PortfolioSummarySerializer.total_profit_loss := total_profit_loss;
         PortfolioSummarySerializer.total_profit_loss_percentage :=
           decimal.round2 total_profit_loss_percentage;
         PortfolioSummarySerializer.holdings_count := List.length holdings;
         PortfolioSummarySerializer.transactions_count := List.length transactions |})%result.

Definition summary (user : User.t) (db : Database)
  : result PortfolioSummarySerializer.representation :=
  (let? data := summary_data user db in
   PortfolioSummarySerializer.to_representation data)%result.
End PortfolioViewSet.

Module UserViewSet.
Definition get_queryset (user : User.t) (db : Database) : list User.t :=
  if User.is_staff user then trading_user db
  else List.filter (fun row => User.id row =? User.id user) (trading_user db).

End UserViewSet.

(** ** Sequences of requests *)

(** The arguments of one [recordTransaction] call. *)
Record call := mk_call {
  call_kind : Transaction.TRANSACTION_TYPES;
  call_debit : Z;
  call_credit : Z;
  call_description : string
}.

Definition net_amount (c : call) : Z := call_credit c - call_debit c.


(** The store after a successful [recordTransaction] of the account whose
    row is [user]. *)
Definition posted (user : User.t) (entry : Transaction.t) (db : Database) : Database :=
  snd (Objects.create_transaction user (Transaction.transaction_type entry)
         (Transaction.debit entry) (Transaction.credit entry)
         (Transaction.description entry) (Transaction.balance_after entry)
         (snd (Objects.save_user user db))).

(** ** The ledger of one account *)

(** The entries of an account, oldest first. *)
Definition ledger (account : Z) (db : Database) : list Transaction.t :=
  List.filter (fun row => Transaction.user row =? account) (trading_transaction db).

(** The balance of the account is the [balance_after] of its newest entry,
    when it has an entry. *)
Definition stamped (account : Z) (db : Database) : Prop :=
  forall user entry,
    Objects.get_user account db = Some user ->
    hd_error (rev (ledger account db)) = Some entry ->
    Transaction.balance_after entry = User.balance user.

(** The balance of the account is the sum of [credit - debit] over its
    entries. *)
Definition balanced (account : Z) (db : Database) : Prop :=
  forall user,
    Objects.get_user account db = Some user ->
    User.balance user
    = builtins.sum (map (fun row => Transaction.credit row - Transaction.debit row)
                        (ledger account db)).

(** No two holdings of one account have the same symbol. *)
Definition unique_together (rows : list Holding.t) : Prop :=
  NoDup (map (fun h => (Holding.user h, Holding.stock h)) rows).

(** ** Example stores *)

(** An account with 500.00 and no ledger entry or holding yet. *)
Definition example_user : User.t := User.mk 7 50000 false.

Definition example_db : Database :=
  {| trading_user := [example_user];
     trading_transaction := [];
     trading_holding := [];
     transaction_id_seq := 1;
     holding_id_seq := 1 |}.

(** A second account, just registered, next to the first. *)
Definition new_user : User.t := User.mk 8 0 false.

Definition new_db : Database :=
  {| trading_user := [example_user; new_user];
     trading_transaction := [];
     trading_holding := [];
     transaction_id_seq := 1;
     holding_id_seq := 1 |}.


(** Three holdings of the first account: a gain, a loss, and a position at
    its buying price. *)
Definition example_holdings : list Holding.t :=
  [ Holding.mk 1 7 "AAPL" 10 2000 2500;
    Holding.mk 2 7 "MSFT" 5 3000 2400;
    Holding.mk 3 7 "IBM" 4 1000 1000 ].

Definition portfolio_db : Database :=
  {| trading_user := [example_user];
     trading_transaction := [];
     trading_holding := example_holdings;
     transaction_id_seq := 1;
     holding_id_seq := 4 |}.

(** One share bought at 1.00 and now at 11.00: a gain of 1000 percent. *)
Definition gain_db : Database :=
  {| trading_user := [example_user];
     trading_transaction := [];
     trading_holding := [Holding.mk 1 7 "GME" 1 100 1100];
     transaction_id_seq := 1;
     holding_id_seq := 2 |}.

(** * Properties *)

(** ** The user table *)

Lemma get_user_id pk user db :
  Objects.get_user pk db = Some user -> User.id user = pk.
Proof.
  unfold Objects.get_user. intros H.
  apply find_some in H. destruct H as [_ H]. now apply Z.eqb_eq.
Qed.

Lemma find_updated (user : User.t) rows :
  existsb (fun row => User.id row =? User.id user) rows = true ->
  find (fun row => User.id row =? User.id user)
       (map (fun row => if User.id row =? User.id user then user else row) rows)
  = Some user.
Proof.
  induction rows as [|row rows IH]; simpl; [discriminate|].
  destruct (User.id row =? User.id user) eqn:E; simpl.
  - intros _. now rewrite Z.eqb_refl.
  - rewrite E. exact IH.
Qed.

Lemma find_inserted (user : User.t) rows :
  existsb (fun row => User.id row =? User.id user) rows = false ->
  find (fun row => User.id row =? User.id user) (rows ++ [user]) = Some user.
Proof.
  induction rows as [|row rows IH]; simpl.
  - intros _. now rewrite Z.eqb_refl.
  - destruct (User.id row =? User.id user); simpl; [discriminate | exact IH].
Qed.

Lemma get_user_save user db :
  Objects.get_user (User.id user) (snd (Objects.save_user user db)) = Some user.
Proof.
  unfold Objects.get_user, Objects.save_user. simpl.
  destruct (existsb _ (trading_user db)) eqn:E.
  - now apply find_updated.
  - now apply find_inserted.
Qed.

(** ** One balance mutation *)

(** What a request that supplies both amounts does, in one equation. *)
Lemma recordTransaction_eq account user kind debit credit description db :
  Objects.get_user account db = Some user ->
  let user' := User.set_balance user (User.balance user + (credit - debit)) in
  let entry := Transaction.mk (transaction_id_seq db) account kind debit credit
                 description (User.balance user + (credit - debit)) in
  TransactionViewSet.recordTransaction account kind debit credit description db
  = (Ok entry, posted user' entry db).
Proof.
  intros Hget user' entry.
  pose proof (get_user_id _ _ _ Hget) as Hid.
  unfold TransactionViewSet.recordTransaction, TransactionViewSet.perform_create,
    request_user, bind.
  rewrite Hget.
  unfold TransactionCreateSerializer.create, bind, lift, getitem, posted,
    Objects.create_transaction. simpl.
  subst entry user'. simpl. now rewrite Hid.
Qed.

Lemma posted_user user entry db :
  Objects.get_user (User.id user) (posted user entry db) = Some user.
Proof.
  unfold posted, Objects.create_transaction, Objects.get_user. simpl.
  apply (get_user_save user db).
Qed.

Lemma posted_ledger user entry db :
  Transaction.id entry = transaction_id_seq db ->
  Transaction.user entry = User.id user ->
  trading_transaction (posted user entry db) = trading_transaction db ++ [entry].
Proof.
  intros Hid Huser. unfold posted, Objects.create_transaction. simpl.
  rewrite <- Hid, <- Huser. now destruct entry.
Qed.





(** ** Sequences of balance mutations *)

Lemma fold_left_add_acc xs acc : fold_left Z.add xs acc = acc + fold_left Z.add xs 0.
Proof.
  revert acc. induction xs as [|x xs IH]; intros acc; simpl.
  - lia.
  - rewrite (IH (acc + x)), (IH x). lia.
Qed.

Lemma sum_cons x xs : builtins.sum (x :: xs) = x + builtins.sum xs.
Proof. unfold builtins.sum. simpl. apply fold_left_add_acc. Qed.












(** ** Holdings *)

(** A decimal amount is zero exactly when its number of hundredths is. *)
Lemma Decimal_nonzero n : n <> 0 -> Qeq_bool (decimal.Decimal n) 0 = false.
Proof.
  intros Hn. destruct (Qeq_bool (decimal.Decimal n) 0) eqn:E; [|reflexivity].
  apply Qeq_bool_iff in E. unfold decimal.Decimal, Qeq in E. simpl in E. lia.
Qed.

Lemma truediv_nonzero a n :
  n <> 0 ->
  decimal.truediv a (decimal.Decimal n) = Ok (decimal.quotient a (decimal.Decimal n)).
Proof.
  intros Hn. unfold decimal.truediv. now rewrite Decimal_nonzero.
Qed.

(** The property never raises: the division is reached only with a positive
    divisor. *)
Lemma profit_loss_percentage_value h :
  Holding.profit_loss_percentage h = Ok (percentage h).
Proof.
  unfold Holding.profit_loss_percentage, percentage.
  destruct (0 <? Holding.total_invested h) eqn:E; [|reflexivity].
  apply Z.ltb_lt in E. rewrite truediv_nonzero by lia. reflexivity.
Qed.

(** C3.  For a holding whose fields satisfy their validators (a quantity that
    is not negative, a buying price of at least 0.01), the percentage is a
    number and never an exception; it is [0] when the amount invested is [0],
    and [(profit_loss / total_invested) * 100] otherwise. *)
Theorem profit_loss_percentage_guarded :
  forall h,
    0 <= Holding.quantity h ->
    1 <= Holding.buying_price h ->
    (exists q, Holding.profit_loss_percentage h = Ok q) /\
    (Holding.total_invested h = 0 ->
     Holding.profit_loss_percentage h = Ok 0%Q) /\
    (Holding.total_invested h <> 0 ->
     Holding.profit_loss_percentage h
     = Ok (decimal.quotient (decimal.Decimal (Holding.profit_loss h))
                            (decimal.Decimal (Holding.total_invested h)) * 100)%Q).
Proof.
  intros h Hq Hp.
  assert (Hti : 0 <= Holding.total_invested h).
  { unfold Holding.total_invested. nia. }
  rewrite profit_loss_percentage_value. unfold percentage.
  split; [eauto|]. split.
  - intros ->. reflexivity.
  - intros Hne. destruct (0 <? Holding.total_invested h) eqn:E; [reflexivity|].
    apply Z.ltb_ge in E. lia.
Qed.

(** The example of the specification: 10 shares bought at 20.00 and now at
    25.00 have gained 25 percent. *)
Lemma profit_loss_percentage_guarded_witness :
  (exists q, Holding.profit_loss_percentage (Holding.mk 1 7 "AAPL" 10 2000 2500) = Ok q) /\
  (Holding.total_invested (Holding.mk 1 7 "AAPL" 10 2000 2500) = 0 ->
   Holding.profit_loss_percentage (Holding.mk 1 7 "AAPL" 10 2000 2500) = Ok 0%Q) /\
  (Holding.total_invested (Holding.mk 1 7 "AAPL" 10 2000 2500) <> 0 ->
   Holding.profit_loss_percentage (Holding.mk 1 7 "AAPL" 10 2000 2500)
   = Ok (decimal.quotient (decimal.Decimal 5000) (decimal.Decimal 20000) * 100)%Q).
Proof.
  apply (profit_loss_percentage_guarded (Holding.mk 1 7 "AAPL" 10 2000 2500)).
  - simpl. lia.
  - simpl. lia.
Defined.

Example holding_example :
  let h := Holding.mk 1 7 "AAPL" 10 2000 2500 in
  Holding.total_invested h = 20000 /\
  Holding.current_value h = 25000 /\
  Holding.profit_loss h = 5000 /\
  (percentage h == 25)%Q.
Proof. repeat split. Qed.



(** Membership in the two listings. *)
Lemma profitable_In user db h :
  In h (HoldingViewSet.profitable user db) <->
  In h (HoldingViewSet.get_queryset user db) /\
  Holding.quantity h * Holding.buying_price h
  < Holding.quantity h * Holding.current_price h.
Proof.
  unfold HoldingViewSet.profitable. rewrite filter_In, Z.ltb_lt. reflexivity.
Qed.

Lemma losing_In user db h :
  In h (HoldingViewSet.losing user db) <->
  In h (HoldingViewSet.get_queryset user db) /\
  Holding.quantity h * Holding.current_price h
  < Holding.quantity h * Holding.buying_price h.
Proof.
  unfold HoldingViewSet.losing. rewrite filter_In, Z.ltb_lt. reflexivity.
Qed.

(** C10.  Both listings compare [quantity * current_price] with
    [quantity * buying_price] strictly: a holding whose two prices are equal,
    or whose quantity is 0, is in neither listing, and no holding is in
    both. *)
Theorem profitable_losing_strict :
  forall user db h,
    (In h (HoldingViewSet.profitable user db) <->
     In h (HoldingViewSet.get_queryset user db) /\
     Holding.quantity h * Holding.current_price h
     > Holding.quantity h * Holding.buying_price h) /\
    (In h (HoldingViewSet.losing user db) <->
     In h (HoldingViewSet.get_queryset user db) /\
     Holding.quantity h * Holding.current_price h
     < Holding.quantity h * Holding.buying_price h) /\
    (Holding.current_price h = Holding.buying_price h \/ Holding.quantity h = 0 ->
     ~ In h (HoldingViewSet.profitable user db) /\
     ~ In h (HoldingViewSet.losing user db)) /\
    ~ (In h (HoldingViewSet.profitable user db) /\
       In h (HoldingViewSet.losing user db)).
Proof.
  intros user db h. rewrite profitable_In, losing_In.
  split; [|split; [|split]].
  - split; intros [Hin Hlt]; (split; [exact Hin | lia]).
  - reflexivity.
  - intros [Heq | Hzero].
    + rewrite Heq. split; intros [_ Hlt]; lia.
    + rewrite Hzero. split; intros [_ Hlt]; lia.
  - intros [[_ Hgt] [_ Hlt]]. lia.
Qed.

Lemma profitable_losing_strict_witness :
  ~ In (Holding.mk 3 7 "IBM" 4 1000 1000) (HoldingViewSet.profitable example_user portfolio_db) /\
  ~ In (Holding.mk 3 7 "IBM" 4 1000 1000) (HoldingViewSet.losing example_user portfolio_db).
Proof.
  apply (profitable_losing_strict example_user portfolio_db
           (Holding.mk 3 7 "IBM" 4 1000 1000)).
  left. reflexivity.
Defined.

Example listings_example :
  map Holding.stock (HoldingViewSet.profitable example_user portfolio_db) = ["AAPL"%string] /\
  map Holding.stock (HoldingViewSet.losing example_user portfolio_db) = ["MSFT"%string].
Proof. split; reflexivity. Qed.

(** ** Creating a holding *)

Lemma errors_nil max d :
  HoldingCreateSerializer.errors max d = [] <->
  HoldingCreateSerializer.stock_ok d = true /\
  HoldingCreateSerializer.quantity_ok max d = true /\
  HoldingCreateSerializer.buying_price_ok d = true /\
  HoldingCreateSerializer.current_price_ok d = true.
Proof.
  unfold HoldingCreateSerializer.errors.
  destruct (HoldingCreateSerializer.stock_ok d),
    (HoldingCreateSerializer.quantity_ok max d),
    (HoldingCreateSerializer.buying_price_ok d),
    (HoldingCreateSerializer.current_price_ok d); simpl;
    split; intros H; try discriminate H; try reflexivity;
    try (destruct H as (? & ? & ? & ?); discriminate).
  repeat split.
Qed.

Lemma is_valid_rejects max d :
  HoldingCreateSerializer.errors max d <> [] ->
  exists fields,
    fields <> [] /\
    HoldingCreateSerializer.is_valid max d = Raise (ValidationError fields).
Proof.
  intros Hne. unfold HoldingCreateSerializer.is_valid.
  destruct (HoldingCreateSerializer.errors max d) as [|f fs]; [contradiction|].
  exists (f :: fs). split; [discriminate | reflexivity].
Qed.

(** C7, as the code has it.  For an authenticated account, [createHolding]
    fails with a [ValidationError] and leaves the store as it was whenever
    the quantity is negative or a price is not positive.  It succeeds and
    returns the new holding, appended to the table, for every input with a
    quantity that is not negative (zero included) and within the integer
    range of the back end, both prices positive and below 10^8, a symbol of
    one to ten characters, and no holding of the account for that symbol. *)
Theorem create_holding_validation :
  forall positive_integer_max account user d db,
    Objects.get_user account db = Some user ->
    (HoldingCreateSerializer.quantity d < 0 \/
     HoldingCreateSerializer.buying_price d <= 0 \/
     HoldingCreateSerializer.current_price d <= 0 ->
     exists fields,
       fields <> [] /\
       HoldingViewSet.create positive_integer_max account d db
       = (Raise (ValidationError fields), db)) /\
    (0 <= HoldingCreateSerializer.quantity d <= positive_integer_max ->
     0 < HoldingCreateSerializer.buying_price d < 10 ^ 10 ->
     0 < HoldingCreateSerializer.current_price d < 10 ^ 10 ->
     HoldingCreateSerializer.stock d <> ""%string ->
     (String.length (HoldingCreateSerializer.stock d) <= 10)%nat ->
     HoldingCreateSerializer.duplicate account (HoldingCreateSerializer.stock d)
       (trading_holding db) = false ->
     exists row db',
       HoldingViewSet.create positive_integer_max account d db = (Ok row, db') /\
       row = Holding.mk (holding_id_seq db) account
               (HoldingCreateSerializer.stock d)
               (HoldingCreateSerializer.quantity d)
               (HoldingCreateSerializer.buying_price d)
               (HoldingCreateSerializer.current_price d) /\
       trading_holding db' = trading_holding db ++ [row] /\
       trading_user db' = trading_user db /\
       trading_transaction db' = trading_transaction db).
Proof.
  intros max account user d db Hget.
  pose proof (get_user_id _ _ _ Hget) as Hid.
  unfold HoldingViewSet.create, request_user, bind, lift. rewrite Hget.
  split.
  - intros Hbad.
    destruct (is_valid_rejects max d) as (fields & Hne & Hinvalid).
    + rewrite errors_nil. intros (_ & Hq & Hb & Hc).
      unfold HoldingCreateSerializer.quantity_ok,
        HoldingCreateSerializer.buying_price_ok,
        HoldingCreateSerializer.current_price_ok,
        HoldingCreateSerializer.MinValueValidator in Hq, Hb, Hc.
      apply andb_true_iff in Hq, Hb, Hc.
      destruct Hq as [Hq _], Hb as [Hb _], Hc as [Hc _].
      apply Z.leb_le in Hq, Hb, Hc. lia.
    + exists fields. rewrite Hinvalid. split; [exact Hne | reflexivity].
  - intros Hq Hb Hc Hblank Hlen Hdup.
    assert (Hvalid : HoldingCreateSerializer.is_valid max d = Ok d).
    { unfold HoldingCreateSerializer.is_valid.
      replace (HoldingCreateSerializer.errors max d) with (@nil string);
        [reflexivity|].
      symmetry. apply errors_nil.
      unfold HoldingCreateSerializer.stock_ok, HoldingCreateSerializer.CharField_ok,
        HoldingCreateSerializer.quantity_ok, HoldingCreateSerializer.buying_price_ok,
        HoldingCreateSerializer.current_price_ok,
        HoldingCreateSerializer.MinValueValidator,
        HoldingCreateSerializer.max_digits_ok.
      rewrite !andb_true_iff, negb_true_iff, !Z.leb_le, !Z.ltb_lt, Nat.leb_le.
      rewrite String.eqb_neq.
      repeat split; try assumption; try lia. }
    rewrite Hvalid. unfold HoldingCreateSerializer.create.
    rewrite Hid, Hdup.
    replace (HoldingCreateSerializer.quantity d <? 0) with false
      by (symmetry; apply Z.ltb_ge; lia).
    simpl. eexists. eexists. split; [reflexivity|]. simpl. repeat split.
Qed.

Lemma create_holding_validation_witness :
  (exists fields,
      fields <> [] /\
      HoldingViewSet.create 2147483647 7 (HoldingCreateSerializer.mk "AAPL" (-1) 2000 2500)
        example_db
      = (Raise (ValidationError fields), example_db)) /\
  (exists row db',
      HoldingViewSet.create 2147483647 7 (HoldingCreateSerializer.mk "AAPL" 10 2000 2500)
        example_db
      = (Ok row, db') /\
      row = Holding.mk 1 7 "AAPL" 10 2000 2500 /\
      trading_holding db' = [] ++ [row] /\
      trading_user db' = trading_user example_db /\
      trading_transaction db' = trading_transaction example_db).
Proof.
  split.
  - apply (create_holding_validation 2147483647 7 example_user
             (HoldingCreateSerializer.mk "AAPL" (-1) 2000 2500) example_db).
    + reflexivity.
    + left. simpl. lia.
  - apply (create_holding_validation 2147483647 7 example_user
             (HoldingCreateSerializer.mk "AAPL" 10 2000 2500) example_db).
    + reflexivity.
    + simpl. lia.
    + simpl. lia.
    + simpl. lia.
    + discriminate.
    + simpl. lia.
    + reflexivity.
Defined.

(** C7, as it is worded, does not hold.  A quantity of 0 passes validation
    ([PositiveIntegerField] admits 0) and the holding is created; and an
    input with a positive quantity, positive prices and no duplicate is
    still refused when a field is outside its declared limits, here a symbol
    of more than ten characters. *)
Lemma create_holding_accepts_zero_quantity :
  (HoldingCreateSerializer.quantity (HoldingCreateSerializer.mk "AAPL" 0 2000 2500) <= 0 /\
   HoldingViewSet.create 2147483647 7 (HoldingCreateSerializer.mk "AAPL" 0 2000 2500)
     example_db
   = (Ok (Holding.mk 1 7 "AAPL" 0 2000 2500),
      {| trading_user := [example_user];
         trading_transaction := [];
         trading_holding := [Holding.mk 1 7 "AAPL" 0 2000 2500];
         transaction_id_seq := 1;
         holding_id_seq := 2 |})) /\
  (HoldingCreateSerializer.duplicate 7 "BERKSHIRE-A" (trading_holding example_db) = false /\
   HoldingViewSet.create 2147483647 7 (HoldingCreateSerializer.mk "BERKSHIRE-A" 10 2000 2500)
     example_db
   = (Raise (ValidationError ["stock"%string]), example_db)).
Proof.
  split; split; try reflexivity.
Qed.

(** ** The performance ranking *)

Section Performance.
Variable float : Type.
Variable float_of_decimal : Q -> float.
Variable float_add : float -> float -> float.
Variable float_zero : float.
Variable float_le : float -> float -> bool.

(** The comparison of two numbers that are not NaN. *)
Hypothesis float_le_total : forall x y, float_le x y = true \/ float_le y x = true.
Hypothesis float_le_trans :
  forall x y z, float_le x y = true -> float_le y z = true -> float_le x z = true.

Local Abbreviation item := (PortfolioViewSet.performance_item float).
Local Abbreviation key := (PortfolioViewSet.profit_loss_percentage float).
Local Abbreviation insert := (PortfolioViewSet.insert float float_le).
Local Abbreviation sort := (PortfolioViewSet.sort float float_le).
Local Abbreviation item_of := (PortfolioViewSet.item_of float float_of_decimal).
Local Abbreviation descending := (fun a b : item => float_le (key b) (key a) = true).


Lemma insert_perm x l : Permutation (x :: l) (insert x l).
Proof.
  induction l as [|y l IH]; simpl.
  - apply Permutation_refl.
  - destruct (float_le (key y) (key x)).
    + apply Permutation_refl.
    + eapply perm_trans; [apply perm_swap|]. now apply perm_skip.
Qed.


Lemma sort_perm l : Permutation l (sort l).
Proof.
  induction l as [|x l IH]; simpl.
  - apply perm_nil.
  - eapply perm_trans; [apply perm_skip, IH | apply insert_perm].
Qed.




Lemma collect_items holdings :
  PortfolioViewSet.collect float float_of_decimal holdings = Ok (map item_of holdings).
Proof.
  induction holdings as [|h hs IH]; simpl.
  - reflexivity.
  - rewrite profit_loss_percentage_value, IH. reflexivity.
Qed.

End Performance.




Example performance_example :
  match PortfolioViewSet.performance Q (fun q => q) Qplus 0%Q Qle_bool
          example_user portfolio_db with
  | Ok (PortfolioViewSet.Performance _ _ (Some best) (Some worst) all) =>
      PortfolioViewSet.stock Q best = "AAPL"%string /\
      PortfolioViewSet.stock Q worst = "MSFT"%string /\
      map (PortfolioViewSet.stock Q) all = ["AAPL"; "IBM"; "MSFT"]%string
  | _ => False
  end.
Proof. vm_compute. repeat split. Qed.

(** * Further properties of the ledger *)

Lemma find_updated_other (user : User.t) pk rows :
  User.id user <> pk ->
  find (fun row => User.id row =? pk)
       (map (fun row => if User.id row =? User.id user then user else row) rows)
  = find (fun row => User.id row =? pk) rows.
Proof.
  intros Hne. induction rows as [|row rows IH]; simpl; [reflexivity|].
  destruct (User.id row =? User.id user) eqn:E.
  - apply Z.eqb_eq in E.
    replace (User.id user =? pk) with false by (symmetry; apply Z.eqb_neq; exact Hne).
    replace (User.id row =? pk) with false by (symmetry; apply Z.eqb_neq; congruence).
    exact IH.
  - rewrite IH. reflexivity.
Qed.

Lemma find_inserted_other (user : User.t) pk rows :
  User.id user <> pk ->
  find (fun row => User.id row =? pk) (rows ++ [user])
  = find (fun row => User.id row =? pk) rows.
Proof.
  intros Hne. induction rows as [|row rows IH]; simpl.
  - now replace (User.id user =? pk) with false by (symmetry; apply Z.eqb_neq; exact Hne).
  - rewrite IH. reflexivity.
Qed.

Lemma get_user_save_other user pk db :
  User.id user <> pk ->
  Objects.get_user pk (snd (Objects.save_user user db)) = Objects.get_user pk db.
Proof.
  intros Hne. unfold Objects.get_user, Objects.save_user. simpl.
  destruct (existsb _ (trading_user db)).
  - now apply find_updated_other.
  - now apply find_inserted_other.
Qed.

Lemma posted_other_user user entry pk db :
  User.id user <> pk ->
  Objects.get_user pk (posted user entry db) = Objects.get_user pk db.
Proof.
  intros Hne. unfold posted, Objects.create_transaction, Objects.get_user. simpl.
  now apply (get_user_save_other user pk db).
Qed.

(** The two outcomes of a call: the account is unknown and nothing happens,
    or the call is applied. *)
Lemma recordTransaction_cases account kind debit credit description db :
  (Objects.get_user account db = None /\
   TransactionViewSet.recordTransaction account kind debit credit description db
   = (Raise NotAuthenticated, db)) \/
  (exists user,
      Objects.get_user account db = Some user /\
      TransactionViewSet.recordTransaction account kind debit credit description db
      = (Ok (Transaction.mk (transaction_id_seq db) account kind debit credit
               description (User.balance user + (credit - debit))),
         posted (User.set_balance user (User.balance user + (credit - debit)))
           (Transaction.mk (transaction_id_seq db) account kind debit credit
              description (User.balance user + (credit - debit))) db)).
Proof.
  destruct (Objects.get_user account db) as [user|] eqn:Hget.
  - right. exists user. split; [reflexivity|].
    now apply recordTransaction_eq.
  - left. split; [reflexivity|].
    unfold TransactionViewSet.recordTransaction, TransactionViewSet.perform_create,
      request_user, bind. now rewrite Hget.
Qed.

Lemma ledger_app account rows db1 db2 :
  trading_transaction db2 = trading_transaction db1 ++ rows ->
  ledger account db2
  = ledger account db1 ++ List.filter (fun row => Transaction.user row =? account) rows.
Proof.
  intros H. unfold ledger. rewrite H. apply filter_app.
Qed.

Lemma posted_transactions user entry db :
  Transaction.id entry = transaction_id_seq db ->
  Transaction.user entry = User.id user ->
  trading_transaction (posted user entry db) = trading_transaction db ++ [entry].
Proof. apply posted_ledger. Qed.

(** X1.  A validated dictionary without [credit] makes [create] raise
    [KeyError('credit')], and one with [credit] but without [debit] raises
    [KeyError('debit')]; in both cases the request ends before anything is
    written: the balance and the ledger are as before. *)
Theorem perform_create_missing_amount :
  forall account user kind debit credit description db,
    Objects.get_user account db = Some user ->
    (credit = None ->
     TransactionViewSet.perform_create account
       (TransactionCreateSerializer.mk kind debit credit description) db
     = (Raise (KeyError "credit"), db)) /\
    (credit <> None -> debit = None ->
     TransactionViewSet.perform_create account
       (TransactionCreateSerializer.mk kind debit credit description) db
     = (Raise (KeyError "debit"), db)).
Proof.
  intros account user kind debit credit description db Hget.
  unfold TransactionViewSet.perform_create, request_user, bind. rewrite Hget.
  unfold TransactionCreateSerializer.create, bind, lift, getitem. simpl.
  split.
  - intros ->. reflexivity.
  - intros Hc ->. destruct credit; [reflexivity | contradiction].
Qed.

Lemma perform_create_missing_amount_witness :
  (@None Z = None ->
   TransactionViewSet.perform_create 7
     (TransactionCreateSerializer.mk Transaction.deposit (Some 0) None "salary") example_db
   = (Raise (KeyError "credit"), example_db)) /\
  (@None Z <> None -> Some 0 = None ->
   TransactionViewSet.perform_create 7
     (TransactionCreateSerializer.mk Transaction.deposit (Some 0) None "salary") example_db
   = (Raise (KeyError "debit"), example_db)).
Proof.
  apply (perform_create_missing_amount 7 example_user Transaction.deposit
           (Some 0) None "salary"%string example_db).
  reflexivity.
Defined.

Lemma TransactionSerializer_create_agrees user kind debit credit description db :
  TransactionSerializer.create
    (TransactionSerializer.mk user kind debit credit description) db
  = TransactionCreateSerializer.create user
      (TransactionCreateSerializer.mk kind debit credit description) db.
Proof. reflexivity. Qed.

(** What [create] does with the object it is handed, whether or not the
    store still holds that object. *)
Lemma create_eq user kind debit credit description db :
  TransactionCreateSerializer.create user
    (TransactionCreateSerializer.mk kind (Some debit) (Some credit) description) db
  = (Ok (Transaction.mk (transaction_id_seq db) (User.id user) kind debit credit
           description (User.balance user + (credit - debit))),
     posted (User.set_balance user (User.balance user + (credit - debit)))
       (Transaction.mk (transaction_id_seq db) (User.id user) kind debit credit
          description (User.balance user + (credit - debit))) db).
Proof. reflexivity. Qed.

(** X2.  [TransactionSerializer.create] books the transaction on the account
    that the payload names in [user], whoever sends the request: that
    account's stored balance becomes the balance of the validated object
    plus [credit - debit], and one entry owned by that account and stamped
    with the new balance is appended. *)
Theorem TransactionSerializer_create_books_on_payload_user :
  forall user kind debit credit description db,
    exists entry db',
      TransactionSerializer.create
        (TransactionSerializer.mk user kind (Some debit) (Some credit) description) db
      = (Ok entry, db') /\
      Objects.get_user (User.id user) db'
      = Some (User.set_balance user (User.balance user + credit - debit)) /\
      trading_transaction db' = trading_transaction db ++ [entry] /\
      Transaction.user entry = User.id user /\
      Transaction.debit entry = debit /\
      Transaction.credit entry = credit /\
      Transaction.balance_after entry = User.balance user + credit - debit.
Proof.
  intros user kind debit credit description db.
  rewrite TransactionSerializer_create_agrees, create_eq.
  replace (User.balance user + credit - debit)
    with (User.balance user + (credit - debit)) by lia.
  eexists. eexists. split; [reflexivity|].
  split; [apply (posted_user (User.set_balance user _))|].
  split; [apply posted_transactions; reflexivity|].
  simpl. repeat split.
Qed.

(** X4.  [create] computes from the balance of the object it is handed and
    not from the stored row.  When two requests have both read the account
    before either writes, the second write overwrites the first: the stored
    balance ends at [B + credit2 - debit2], the first net amount is lost,
    and yet both entries are in the ledger. *)
Theorem create_stale_object_overwrites :
  forall user kind1 debit1 credit1 description1 kind2 debit2 credit2 description2 db,
    exists entry1 db1 entry2 db2,
      TransactionCreateSerializer.create user
        (TransactionCreateSerializer.mk kind1 (Some debit1) (Some credit1) description1) db
      = (Ok entry1, db1) /\
      TransactionCreateSerializer.create user
        (TransactionCreateSerializer.mk kind2 (Some debit2) (Some credit2) description2) db1
      = (Ok entry2, db2) /\
      Objects.get_user (User.id user) db2
      = Some (User.set_balance user (User.balance user + credit2 - debit2)) /\
      trading_transaction db2 = trading_transaction db ++ [entry1; entry2] /\
      Transaction.balance_after entry1 = User.balance user + credit1 - debit1 /\
      Transaction.balance_after entry2 = User.balance user + credit2 - debit2.
Proof.
  intros. rewrite create_eq. eexists. eexists. eexists. eexists.
  split; [reflexivity|]. rewrite create_eq. split; [reflexivity|].
  replace (User.balance user + credit2 - debit2)
    with (User.balance user + (credit2 - debit2)) by lia.
  replace (User.balance user + credit1 - debit1)
    with (User.balance user + (credit1 - debit1)) by lia.
  split; [apply (posted_user (User.set_balance user _))|].
  split; [|split; reflexivity].
  rewrite posted_transactions by reflexivity.
  rewrite posted_transactions by reflexivity.
  now rewrite <- app_assoc.
Qed.

(** X3.  A call on one account never touches another: whatever its outcome,
    the row and the entries of every other account, and all holdings, are
    as before, and the ledger table only grows at its end. *)
Theorem recordTransaction_frame :
  forall account other kind debit credit description db outcome db',
    TransactionViewSet.recordTransaction account kind debit credit description db
    = (outcome, db') ->
    other <> account ->
    Objects.get_user other db' = Objects.get_user other db /\
    ledger other db' = ledger other db /\
    trading_holding db' = trading_holding db /\
    exists new, trading_transaction db' = trading_transaction db ++ new.
Proof.
  intros account other kind debit credit description db outcome db' Hrun Hother.
  destruct (recordTransaction_cases account kind debit credit description db)
    as [[_ Hnone] | (user & Hget & Hsome)].
  - rewrite Hnone in Hrun. injection Hrun as _ <-.
    repeat split. exists []. now rewrite app_nil_r.
  - rewrite Hsome in Hrun. injection Hrun as _ <-.
    pose proof (get_user_id _ _ _ Hget) as Hid.
    split; [|split; [|split]].
    + apply posted_other_user. simpl. congruence.
    + rewrite (ledger_app other [_] db (posted _ _ db))
        by (apply posted_transactions; simpl; congruence).
      simpl.
      replace (account =? other) with false by (symmetry; apply Z.eqb_neq; congruence).
      apply app_nil_r.
    + reflexivity.
    + eexists. apply posted_transactions; simpl; congruence.
Qed.

Lemma recordTransaction_frame_witness :
  Objects.get_user 7 (snd (TransactionViewSet.recordTransaction 8 Transaction.deposit
                             0 10000 "salary" new_db))
  = Objects.get_user 7 new_db /\
  ledger 7 (snd (TransactionViewSet.recordTransaction 8 Transaction.deposit
                   0 10000 "salary" new_db))
  = ledger 7 new_db /\
  trading_holding (snd (TransactionViewSet.recordTransaction 8 Transaction.deposit
                          0 10000 "salary" new_db))
  = trading_holding new_db /\
  exists new,
    trading_transaction (snd (TransactionViewSet.recordTransaction 8 Transaction.deposit
                                0 10000 "salary" new_db))
    = trading_transaction new_db ++ new.
Proof.
  apply (recordTransaction_frame 8 7 Transaction.deposit 0 10000 "salary"%string new_db
           (fst (TransactionViewSet.recordTransaction 8 Transaction.deposit
                   0 10000 "salary" new_db))).
  - reflexivity.
  - lia.
Defined.

(** ** Invariants of the ledger *)

Lemma sum_app xs ys : builtins.sum (xs ++ ys) = builtins.sum xs + builtins.sum ys.
Proof.
  induction xs as [|x xs IH]; simpl.
  - reflexivity.
  - rewrite !sum_cons, IH. lia.
Qed.


Lemma last_snoc {A} (l : list A) x : hd_error (rev (l ++ [x])) = Some x.
Proof. now rewrite rev_app_distr. Qed.

(** The ledger of the caller after a call that was applied. *)
Lemma posted_own_ledger user entry db :
  Transaction.id entry = transaction_id_seq db ->
  Transaction.user entry = User.id user ->
  ledger (User.id user) (posted user entry db) = ledger (User.id user) db ++ [entry].
Proof.
  intros Hid Huser.
  rewrite (ledger_app (User.id user) [entry] db) by now apply posted_transactions.
  simpl. rewrite Huser, Z.eqb_refl. reflexivity.
Qed.

(** X5.  Every call, applied or refused, on any account keeps the two
    invariants of each account: the balance is the [balance_after] of the
    newest entry of the account, and the balance is the sum of
    [credit - debit] over the entries of the account.  A call that is
    applied establishes the first one for its own account even when it did
    not hold before. *)
Theorem recordTransaction_keeps_invariants :
  forall account caller kind debit credit description db outcome db',
    TransactionViewSet.recordTransaction caller kind debit credit description db
    = (outcome, db') ->
    (stamped account db -> stamped account db') /\
    (balanced account db -> balanced account db') /\
    (forall entry, outcome = Ok entry -> stamped caller db').
Proof.
  intros account caller kind debit credit description db outcome db' Hrun.
  destruct (recordTransaction_cases caller kind debit credit description db)
    as [[_ Hnone] | (user & Hget & Hsome)].
  - rewrite Hnone in Hrun. injection Hrun as <- <-.
    split; [trivial|]. split; [trivial|]. discriminate.
  - rewrite Hsome in Hrun. injection Hrun as _ <-.
    pose proof (get_user_id _ _ _ Hget) as Hid.
    set (user' := User.set_balance user (User.balance user + (credit - debit))).
    set (entry := Transaction.mk _ _ _ _ _ _ _).
    assert (Hown : stamped caller (posted user' entry db)).
    { intros u e Hu He. rewrite <- Hid in Hu, He.
      change (User.id user) with (User.id user') in Hu, He.
      rewrite posted_user in Hu. injection Hu as <-.
      rewrite posted_own_ledger in He by (simpl; congruence).
      rewrite last_snoc in He. injection He as <-. reflexivity. }
    destruct (Z.eq_dec account caller) as [-> | Hne].
    + split; [intros _; exact Hown|]. split; [|intros _ _; exact Hown].
      intros Hbal u Hu. rewrite <- Hid in Hu |- *.
      change (User.id user) with (User.id user') in Hu |- *.
      rewrite posted_user in Hu. injection Hu as <-.
      rewrite posted_own_ledger by (simpl; congruence).
      rewrite map_app, sum_app. simpl. rewrite <- Hid in Hbal.
      rewrite <- (Hbal user) by (rewrite Hid; exact Hget).
      unfold builtins.sum. simpl. lia.
    + assert (Huser : Objects.get_user account (posted user' entry db)
                      = Objects.get_user account db).
      { apply posted_other_user. simpl. congruence. }
      assert (Hledger : ledger account (posted user' entry db) = ledger account db).
      { rewrite (ledger_app account [entry] db)
          by (apply posted_transactions; simpl; congruence).
        simpl.
        replace (caller =? account) with false by (symmetry; apply Z.eqb_neq; congruence).
        apply app_nil_r. }
      split; [|split; [|intros _ _; exact Hown]].
      * intros H u e. rewrite Huser, Hledger. apply H.
      * intros H u. rewrite Huser, Hledger. apply H.
Qed.

Lemma recordTransaction_keeps_invariants_witness :
  (stamped 7 new_db ->
   stamped 7 (snd (TransactionViewSet.recordTransaction 8 Transaction.deposit
                     0 10000 "salary" new_db))) /\
  (balanced 7 new_db ->
   balanced 7 (snd (TransactionViewSet.recordTransaction 8 Transaction.deposit
                      0 10000 "salary" new_db))) /\
  (forall entry,
      fst (TransactionViewSet.recordTransaction 8 Transaction.deposit
             0 10000 "salary" new_db) = Ok entry ->
      stamped 8 (snd (TransactionViewSet.recordTransaction 8 Transaction.deposit
                        0 10000 "salary" new_db))).
Proof.
  apply (recordTransaction_keeps_invariants 7 8 Transaction.deposit 0 10000
           "salary"%string new_db).
  reflexivity.
Defined.







(** ** Listing the ledger *)



Lemma value_injective kind1 kind2 :
  Transaction.value kind1 = Transaction.value kind2 -> kind1 = kind2.
Proof. destruct kind1, kind2; simpl; intros H; first [reflexivity | discriminate H]. Qed.

(** X8.  [by_type] without a [type] parameter, or with an empty one, is the
    whole listing; with the value of a kind it is exactly the entries of
    that kind in the listing; and with a string that is not the value of a
    kind, in whatever letter case, it is the empty list and no error. *)
Theorem by_type_selects_kind :
  forall user db,
    TransactionViewSet.by_type user None db = TransactionViewSet.get_queryset user db /\
    TransactionViewSet.by_type user (Some ""%string) db
    = TransactionViewSet.get_queryset user db /\
    (forall kind row,
        In row (TransactionViewSet.by_type user (Some (Transaction.value kind)) db) <->
        In row (TransactionViewSet.get_queryset user db) /\
        Transaction.transaction_type row = kind) /\
    (forall type,
        type <> ""%string ->
        (forall kind, lookups.upper type <> lookups.upper (Transaction.value kind)) ->
        TransactionViewSet.by_type user (Some type) db = []).
Proof.
  intros user db. split; [reflexivity|]. split; [reflexivity|]. split.
  - intros kind row. unfold TransactionViewSet.by_type.
    replace (String.eqb (Transaction.value kind) "") with false
      by (now destruct kind).
    rewrite filter_In, String.eqb_eq. split.
    + intros [Hin Hkind]. split; [exact Hin | now apply value_injective].
    + intros [Hin <-]. split; [exact Hin | reflexivity].
  - intros type Hne Hunknown. unfold TransactionViewSet.by_type.
    replace (String.eqb type "") with false
      by (symmetry; apply String.eqb_neq; exact Hne).
    induction (TransactionViewSet.get_queryset user db) as [|row rows IH]; simpl;
      [reflexivity|].
    destruct (String.eqb (Transaction.value (Transaction.transaction_type row)) type)
      eqn:E; [|exact IH].
    apply String.eqb_eq in E. exfalso.
    apply (Hunknown (Transaction.transaction_type row)). now rewrite E.
Qed.

(** X9.  What a user sees.  A user who is not staff is shown only rows of the
    own account: the entries, the holdings and the user rows of the three
    listings are exactly the stored rows with the user's id; a staff user is
    shown every row.  The filtered listings ([by_type], [recent],
    [by_stock], [profitable], [losing]) never show a row that the listing
    they start from does not show. *)
Theorem listings_are_scoped :
  forall user db,
    (User.is_staff user = false ->
     (forall row, In row (TransactionViewSet.get_queryset user db) <->
                  In row (trading_transaction db) /\
                  Transaction.user row = User.id user) /\
     (forall h, In h (HoldingViewSet.get_queryset user db) <->
                In h (trading_holding db) /\ Holding.user h = User.id user) /\
     (forall u, In u (UserViewSet.get_queryset user db) <->
                In u (trading_user db) /\ User.id u = User.id user)) /\
    (User.is_staff user = true ->
     TransactionViewSet.get_queryset user db = rev (trading_transaction db) /\
     HoldingViewSet.get_queryset user db = rev (trading_holding db) /\
     UserViewSet.get_queryset user db = trading_user db) /\
    (forall type row,
        In row (TransactionViewSet.by_type user type db) \/
        In row (TransactionViewSet.recent user db) ->
        In row (TransactionViewSet.get_queryset user db)) /\
    (forall stock h,
        In h (HoldingViewSet.by_stock user stock db) \/
        In h (HoldingViewSet.profitable user db) \/
        In h (HoldingViewSet.losing user db) ->
        In h (HoldingViewSet.get_queryset user db)).
Proof.
  intros user db. split; [|split; [|split]].
  - intros Hstaff.
    unfold TransactionViewSet.get_queryset, TransactionViewSet.objects_all,
      HoldingViewSet.get_queryset, HoldingViewSet.objects_all, UserViewSet.get_queryset.
    rewrite Hstaff. split; [|split]; intros x;
      rewrite filter_In, ?Z.eqb_eq, <- ?in_rev; reflexivity.
  - intros Hstaff.
    unfold TransactionViewSet.get_queryset, TransactionViewSet.objects_all,
      HoldingViewSet.get_queryset, HoldingViewSet.objects_all, UserViewSet.get_queryset.
    now rewrite Hstaff.
  - intros type row [Hin | Hin].
    + unfold TransactionViewSet.by_type in Hin.
      destruct type as [t|]; [|exact Hin].
      destruct (String.eqb t ""); [exact Hin|].
      apply filter_In in Hin. apply Hin.
    + unfold TransactionViewSet.recent in Hin.
      rewrite <- (firstn_skipn 10 (TransactionViewSet.get_queryset user db)).
      apply in_or_app. now left.
  - intros stock h [Hin | [Hin | Hin]].
    + unfold HoldingViewSet.by_stock in Hin.
      destruct stock as [s|]; [|exact Hin].
      destruct (String.eqb s ""); [exact Hin|].
      apply filter_In in Hin. apply Hin.
    + apply profitable_In in Hin. apply Hin.
    + apply losing_In in Hin. apply Hin.
Qed.

(** * Further properties of the holdings *)

Lemma is_valid_Ok max d d' :
  HoldingCreateSerializer.is_valid max d = Ok d' -> d' = d.
Proof.
  unfold HoldingCreateSerializer.is_valid.
  destruct (HoldingCreateSerializer.errors max d); [|discriminate].
  now intros [= <-].
Qed.

(** The three ways a request to create a holding ends. *)
Lemma create_holding_cases max account d db outcome db' :
  HoldingViewSet.create max account d db = (outcome, db') ->
  (db' = db /\ exists e, outcome = Raise e) \/
  (exists user,
      Objects.get_user account db = Some user /\
      HoldingCreateSerializer.is_valid max d = Ok d /\
      0 <= HoldingCreateSerializer.quantity d /\
      HoldingCreateSerializer.duplicate account (HoldingCreateSerializer.stock d)
        (trading_holding db) = false /\
      outcome = Ok (Holding.mk (holding_id_seq db) account
                      (HoldingCreateSerializer.stock d)
                      (HoldingCreateSerializer.quantity d)
                      (HoldingCreateSerializer.buying_price d)
                      (HoldingCreateSerializer.current_price d)) /\
      trading_user db' = trading_user db /\
      trading_transaction db' = trading_transaction db /\
      trading_holding db'
      = trading_holding db
        ++ [Holding.mk (holding_id_seq db) account
              (HoldingCreateSerializer.stock d)
              (HoldingCreateSerializer.quantity d)
              (HoldingCreateSerializer.buying_price d)
              (HoldingCreateSerializer.current_price d)]).
Proof.
  unfold HoldingViewSet.create, request_user, bind, lift.
  destruct (Objects.get_user account db) as [user|] eqn:Hget.
  2:{ intros [= <- <-]. left. eauto. }
  pose proof (get_user_id _ _ _ Hget) as Hid.
  destruct (HoldingCreateSerializer.is_valid max d) as [d'|e] eqn:Hvalid.
  2:{ intros [= <- <-]. left. eauto. }
  pose proof (is_valid_Ok _ _ _ Hvalid) as ->.
  unfold HoldingCreateSerializer.create. rewrite Hid.
  destruct (HoldingCreateSerializer.quantity d <? 0) eqn:Hq; simpl.
  { intros [= <- <-]. left. eauto. }
  destruct (HoldingCreateSerializer.duplicate account _ (trading_holding db)) eqn:Hdup.
  { intros [= <- <-]. left. eauto. }
  intros [= <- <-]. right. exists user. apply Z.ltb_ge in Hq. simpl.
  repeat split; assumption.
Qed.

Lemma duplicate_In user symbol rows :
  HoldingCreateSerializer.duplicate user symbol rows = true <->
  In (user, symbol) (map (fun h => (Holding.user h, Holding.stock h)) rows).
Proof.
  unfold HoldingCreateSerializer.duplicate. rewrite existsb_exists, in_map_iff.
  split; intros (h & H1 & H2); exists h.
  - apply andb_true_iff in H2. destruct H2 as [Hu Hs].
    apply Z.eqb_eq in Hu. apply String.eqb_eq in Hs. split; [congruence | exact H1].
  - injection H1 as Hu Hs. split; [exact H2|].
    apply andb_true_iff. split; [now apply Z.eqb_eq | now apply String.eqb_eq].
Qed.

(** X10.  A symbol is held once per account.  After a holding was created,
    a second request of the same account for the same symbol never
    succeeds and changes nothing, and the same payload is refused by the
    store with [IntegrityError]; and whatever the outcome of a request, a
    table without two holdings of one account for one symbol stays so. *)
Theorem create_holding_keeps_unique_together :
  forall max account d db outcome db',
    HoldingViewSet.create max account d db = (outcome, db') ->
    (unique_together (trading_holding db) -> unique_together (trading_holding db')) /\
    (forall row, outcome = Ok row ->
       HoldingViewSet.create max account d db' = (Raise IntegrityError, db') /\
       forall d2,
         HoldingCreateSerializer.stock d2 = HoldingCreateSerializer.stock d ->
         exists e, HoldingViewSet.create max account d2 db' = (Raise e, db')).
Proof.
  intros max account d db outcome db' Hrun.
  destruct (create_holding_cases _ _ _ _ _ _ Hrun)
    as [[-> [e ->]] | (user & Hget & Hvalid & Hq & Hdup & -> & Husers & Htx & Hrows)].
  - split; [trivial | discriminate].
  - assert (Hnow : HoldingCreateSerializer.duplicate account
                     (HoldingCreateSerializer.stock d) (trading_holding db') = true).
    { apply duplicate_In. rewrite Hrows, map_app. apply in_or_app. right. now left. }
    assert (Hget' : Objects.get_user account db' = Some user).
    { unfold Objects.get_user in *. now rewrite Husers. }
    pose proof (get_user_id _ _ _ Hget) as Hid.
    split.
    + unfold unique_together. rewrite Hrows, map_app. intros Hnodup.
      apply NoDup_app; [exact Hnodup | repeat constructor; intros [] |].
      intros pair Hin [<- | []]. simpl in Hin.
      apply duplicate_In in Hin. congruence.
    + intros row _. split.
      * unfold HoldingViewSet.create, request_user, bind, lift.
        rewrite Hget', Hvalid. unfold HoldingCreateSerializer.create.
        rewrite Hid, Hnow, orb_true_r. reflexivity.
      * intros d2 Hsame.
        unfold HoldingViewSet.create, request_user, bind, lift. rewrite Hget'.
        destruct (HoldingCreateSerializer.is_valid max d2) as [d2'|e] eqn:Hvalid2;
          [|eauto].
        pose proof (is_valid_Ok _ _ _ Hvalid2) as ->.
        unfold HoldingCreateSerializer.create.
        rewrite Hid, Hsame, Hnow, orb_true_r. eauto.
Qed.

Lemma create_holding_keeps_unique_together_witness :
  (unique_together (trading_holding example_db) ->
   unique_together
     (trading_holding
        (snd (HoldingViewSet.create 2147483647 7
                (HoldingCreateSerializer.mk "AAPL" 10 2000 2500) example_db)))) /\
  (forall row,
      fst (HoldingViewSet.create 2147483647 7
             (HoldingCreateSerializer.mk "AAPL" 10 2000 2500) example_db) = Ok row ->
      HoldingViewSet.create 2147483647 7 (HoldingCreateSerializer.mk "AAPL" 10 2000 2500)
        (snd (HoldingViewSet.create 2147483647 7
                (HoldingCreateSerializer.mk "AAPL" 10 2000 2500) example_db))
      = (Raise IntegrityError,
         snd (HoldingViewSet.create 2147483647 7
                (HoldingCreateSerializer.mk "AAPL" 10 2000 2500) example_db)) /\
      forall d2,
        HoldingCreateSerializer.stock d2 = "AAPL"%string ->
        exists e,
          HoldingViewSet.create 2147483647 7 d2
            (snd (HoldingViewSet.create 2147483647 7
                    (HoldingCreateSerializer.mk "AAPL" 10 2000 2500) example_db))
          = (Raise e,
             snd (HoldingViewSet.create 2147483647 7
                    (HoldingCreateSerializer.mk "AAPL" 10 2000 2500) example_db))).
Proof.
  apply (create_holding_keeps_unique_together 2147483647 7
           (HoldingCreateSerializer.mk "AAPL" 10 2000 2500) example_db).
  reflexivity.
Defined.

Lemma upper_ascii_idempotent c :
  lookups.upper_ascii (lookups.upper_ascii c) = lookups.upper_ascii c.
Proof. destruct c as [[] [] [] [] [] [] [] []]; reflexivity. Qed.

Lemma upper_idempotent s : lookups.upper (lookups.upper s) = lookups.upper s.
Proof.
  induction s as [|c s IH]; simpl; [reflexivity|].
  now rewrite upper_ascii_idempotent, IH.
Qed.

Lemma upper_empty s : lookups.upper s = ""%string <-> s = ""%string.
Proof. destruct s; simpl; split; intros H; first [reflexivity | discriminate H]. Qed.

Lemma iexact_upper a b :
  lookups.iexact a b = true <-> lookups.upper a = lookups.upper b.
Proof. unfold lookups.iexact. apply String.eqb_eq. Qed.

Lemma holding_queryset_after_create viewer row db db' :
  trading_holding db' = trading_holding db ++ [row] ->
  User.is_staff viewer = true \/ Holding.user row = User.id viewer ->
  HoldingViewSet.get_queryset viewer db' = row :: HoldingViewSet.get_queryset viewer db.
Proof.
  intros Hrows Hsees.
  unfold HoldingViewSet.get_queryset, HoldingViewSet.objects_all.
  rewrite Hrows, rev_app_distr. simpl.
  destruct (User.is_staff viewer); [reflexivity|].
  destruct Hsees as [Hstaff | Hown]; [discriminate|].
  now rewrite Hown, Z.eqb_refl.
Qed.

(** X11.  A holding that was created is found again.  For the owner of the
    account and for staff it is the first of the listing, ahead of the
    holdings listed before, and [by_stock] returns it first for its symbol
    written in any letter case. *)
Theorem created_holding_is_listed :
  forall max account d db row db' viewer,
    HoldingViewSet.create max account d db = (Ok row, db') ->
    User.is_staff viewer = true \/ User.id viewer = account ->
    Holding.stock row = HoldingCreateSerializer.stock d /\
    HoldingViewSet.get_queryset viewer db'
    = row :: HoldingViewSet.get_queryset viewer db /\
    (forall symbol,
        lookups.upper symbol = lookups.upper (HoldingCreateSerializer.stock d) ->
        HoldingViewSet.by_stock viewer (Some symbol) db'
        = row :: HoldingViewSet.by_stock viewer (Some symbol) db).
Proof.
  intros max account d db row db' viewer Hrun Hsees.
  destruct (create_holding_cases _ _ _ _ _ _ Hrun)
    as [[_ [e He]] | (user & Hget & Hvalid & Hq & Hdup & Hrow & _ & _ & Hrows)];
    [discriminate He|].
  injection Hrow as ->.
  assert (Hlist : HoldingViewSet.get_queryset viewer db'
                  = Holding.mk (holding_id_seq db) account
                      (HoldingCreateSerializer.stock d)
                      (HoldingCreateSerializer.quantity d)
                      (HoldingCreateSerializer.buying_price d)
                      (HoldingCreateSerializer.current_price d)
                    :: HoldingViewSet.get_queryset viewer db).
  { apply holding_queryset_after_create; [exact Hrows|].
    destruct Hsees as [Hstaff | Hown]; [now left | right; simpl; congruence]. }
  split; [reflexivity|]. split; [exact Hlist|].
  intros symbol Hsame.
  assert (Hstock : HoldingCreateSerializer.stock d <> ""%string).
  { unfold HoldingCreateSerializer.is_valid in Hvalid.
    destruct (HoldingCreateSerializer.errors max d) eqn:Herr; [|discriminate Hvalid].
    apply errors_nil in Herr. destruct Herr as (Hs & _).
    unfold HoldingCreateSerializer.stock_ok, HoldingCreateSerializer.CharField_ok in Hs.
    apply andb_true_iff in Hs. destruct Hs as [Hs _].
    apply negb_true_iff, String.eqb_neq in Hs. exact Hs. }
  assert (Hsymbol : symbol <> ""%string).
  { intros ->. simpl in Hsame. symmetry in Hsame.
    apply (proj1 (upper_empty _)) in Hsame. contradiction. }
  unfold HoldingViewSet.by_stock.
  replace (String.eqb symbol "") with false
    by (symmetry; apply String.eqb_neq; exact Hsymbol).
  rewrite Hlist. simpl.
  replace (lookups.iexact (HoldingCreateSerializer.stock d) symbol) with true
    by (symmetry; apply iexact_upper; congruence).
  reflexivity.
Qed.

Lemma created_holding_is_listed_witness :
  Holding.stock (Holding.mk 1 7 "AAPL" 10 2000 2500) = "AAPL"%string /\
  HoldingViewSet.get_queryset example_user
    (snd (HoldingViewSet.create 2147483647 7
            (HoldingCreateSerializer.mk "AAPL" 10 2000 2500) example_db))
  = Holding.mk 1 7 "AAPL" 10 2000 2500
    :: HoldingViewSet.get_queryset example_user example_db /\
  (forall symbol,
      lookups.upper symbol = lookups.upper "AAPL" ->
      HoldingViewSet.by_stock example_user (Some symbol)
        (snd (HoldingViewSet.create 2147483647 7
                (HoldingCreateSerializer.mk "AAPL" 10 2000 2500) example_db))
      = Holding.mk 1 7 "AAPL" 10 2000 2500
        :: HoldingViewSet.by_stock example_user (Some symbol) example_db).
Proof.
  apply (created_holding_is_listed 2147483647 7
           (HoldingCreateSerializer.mk "AAPL" 10 2000 2500) example_db).
  - reflexivity.
  - right. reflexivity.
Defined.

(** X12.  [by_stock] without a [stock] parameter, or with an empty one, is
    the whole listing; otherwise it is exactly the holdings of the listing
    whose symbol has the letters of the parameter, whatever their case, so
    that the parameter may itself be written in any case. *)
Theorem by_stock_ignores_case :
  forall user db,
    HoldingViewSet.by_stock user None db = HoldingViewSet.get_queryset user db /\
    HoldingViewSet.by_stock user (Some ""%string) db
    = HoldingViewSet.get_queryset user db /\
    (forall symbol h,
        symbol <> ""%string ->
        (In h (HoldingViewSet.by_stock user (Some symbol) db) <->
         In h (HoldingViewSet.get_queryset user db) /\
         lookups.upper (Holding.stock h) = lookups.upper symbol)) /\
    (forall symbol symbol',
        symbol <> ""%string ->
        lookups.upper symbol' = lookups.upper symbol ->
        HoldingViewSet.by_stock user (Some symbol') db
        = HoldingViewSet.by_stock user (Some symbol) db).
Proof.
  intros user db. split; [reflexivity|]. split; [reflexivity|]. split.
  - intros symbol h Hne. unfold HoldingViewSet.by_stock.
    replace (String.eqb symbol "") with false
      by (symmetry; apply String.eqb_neq; exact Hne).
    rewrite filter_In, iexact_upper. reflexivity.
  - intros symbol symbol' Hne Hsame.
    assert (Hne' : symbol' <> ""%string).
    { intros ->. simpl in Hsame. symmetry in Hsame.
      apply (proj1 (upper_empty _)) in Hsame. contradiction. }
    unfold HoldingViewSet.by_stock.
    replace (String.eqb symbol "") with false
      by (symmetry; apply String.eqb_neq; exact Hne).
    replace (String.eqb symbol' "") with false
      by (symmetry; apply String.eqb_neq; exact Hne').
    apply filter_ext. intros h. unfold lookups.iexact. now rewrite Hsame.
Qed.

(** X13.  A request to create a holding changes nothing but the holdings of
    its own account: the user rows and the ledger are as before, the listing
    of every other user who is not staff is as before, and a request that
    is refused leaves the whole store as it was. *)
Theorem create_holding_frame :
  forall max account d db outcome db',
    HoldingViewSet.create max account d db = (outcome, db') ->
    trading_user db' = trading_user db /\
    trading_transaction db' = trading_transaction db /\
    (forall viewer,
        User.is_staff viewer = false -> User.id viewer <> account ->
        HoldingViewSet.get_queryset viewer db' = HoldingViewSet.get_queryset viewer db) /\
    (forall e, outcome = Raise e -> db' = db).
Proof.
  intros max account d db outcome db' Hrun.
  destruct (create_holding_cases _ _ _ _ _ _ Hrun)
    as [[-> [e ->]] | (user & _ & _ & _ & _ & -> & Husers & Htx & Hrows)].
  - repeat split.
  - split; [exact Husers|]. split; [exact Htx|]. split; [|discriminate].
    intros viewer Hstaff Hother.
    unfold HoldingViewSet.get_queryset, HoldingViewSet.objects_all.
    rewrite Hstaff, Hrows, rev_app_distr. simpl.
    replace (account =? User.id viewer) with false
      by (symmetry; apply Z.eqb_neq; congruence).
    reflexivity.
Qed.

Lemma create_holding_frame_witness :
  trading_user (snd (HoldingViewSet.create 2147483647 8
                       (HoldingCreateSerializer.mk "AAPL" 10 2000 2500) new_db))
  = trading_user new_db /\
  trading_transaction (snd (HoldingViewSet.create 2147483647 8
                              (HoldingCreateSerializer.mk "AAPL" 10 2000 2500) new_db))
  = trading_transaction new_db /\
  (forall viewer,
      User.is_staff viewer = false -> User.id viewer <> 8 ->
      HoldingViewSet.get_queryset viewer
        (snd (HoldingViewSet.create 2147483647 8
                (HoldingCreateSerializer.mk "AAPL" 10 2000 2500) new_db))
      = HoldingViewSet.get_queryset viewer new_db) /\
  (forall e,
      fst (HoldingViewSet.create 2147483647 8
             (HoldingCreateSerializer.mk "AAPL" 10 2000 2500) new_db) = Raise e ->
      snd (HoldingViewSet.create 2147483647 8
             (HoldingCreateSerializer.mk "AAPL" 10 2000 2500) new_db) = new_db).
Proof.
  apply (create_holding_frame 2147483647 8
           (HoldingCreateSerializer.mk "AAPL" 10 2000 2500) new_db).
  reflexivity.
Defined.

(** ** Totals of the holdings *)




Lemma portfolio_summary_data_Ok user db :
  exists percentage,
    PortfolioViewSet.summary_data user db
    = Ok (PortfolioSummarySerializer.mk
            (User.balance user)
            (builtins.sum (map Holding.total_invested
                               (List.filter (fun h => Holding.user h =? User.id user)
                                            (HoldingViewSet.objects_all db))))
            (builtins.sum (map Holding.current_value
                               (List.filter (fun h => Holding.user h =? User.id user)
                                            (HoldingViewSet.objects_all db))))
            (builtins.sum (map Holding.current_value
                               (List.filter (fun h => Holding.user h =? User.id user)
                                            (HoldingViewSet.objects_all db)))
             - builtins.sum (map Holding.total_invested
                                 (List.filter (fun h => Holding.user h =? User.id user)
                                              (HoldingViewSet.objects_all db))))
            (decimal.round2 percentage)
            (List.length (List.filter (fun h => Holding.user h =? User.id user)
                                      (HoldingViewSet.objects_all db)))
            (List.length (List.filter (fun row => Transaction.user row =? User.id user)
                                      (TransactionViewSet.objects_all db)))) /\
    (builtins.sum (map Holding.total_invested
                       (List.filter (fun h => Holding.user h =? User.id user)
                                    (HoldingViewSet.objects_all db))) <= 0 ->
     percentage = 0%Q) /\
    (0 < builtins.sum (map Holding.total_invested
                           (List.filter (fun h => Holding.user h =? User.id user)
                                        (HoldingViewSet.objects_all db))) ->
     percentage
     = (decimal.quotient
          (decimal.Decimal
             (builtins.sum (map Holding.current_value
                                (List.filter (fun h => Holding.user h =? User.id user)
                                             (HoldingViewSet.objects_all db)))
              - builtins.sum (map Holding.total_invested
                                  (List.filter (fun h => Holding.user h =? User.id user)
                                               (HoldingViewSet.objects_all db)))))
          (decimal.Decimal
             (builtins.sum (map Holding.total_invested
                                (List.filter (fun h => Holding.user h =? User.id user)
                                             (HoldingViewSet.objects_all db))))) * 100)%Q).
Proof.
  unfold PortfolioViewSet.summary_data.
  set (holdings := List.filter _ (HoldingViewSet.objects_all db)).
  destruct (0 <? builtins.sum (map Holding.total_invested holdings)) eqn:E.
  - apply Z.ltb_lt in E. rewrite truediv_nonzero by lia. simpl.
    eexists. split; [reflexivity|]. split; [lia | reflexivity].
  - apply Z.ltb_ge in E. simpl. exists 0%Q.
    split; [reflexivity|]. split; [reflexivity | lia].
Qed.

(** X15.  For a user who is not staff the two summaries agree: the dictionary
    of the portfolio summary carries the totals, the percentage and the
    count of the holdings summary, next to the balance of the user and the
    number of the user's ledger entries.  With no holding both report zero
    everywhere, percentage included, and neither raises. *)
Theorem summaries_agree :
  forall user db,
    User.is_staff user = false ->
    exists response data,
      HoldingViewSet.summary user db = Ok response /\
      PortfolioViewSet.summary_data user db = Ok data /\
      PortfolioSummarySerializer.total_invested data
      = HoldingViewSet.total_invested response /\
      PortfolioSummarySerializer.total_current_value data
      = HoldingViewSet.total_current_value response /\
      PortfolioSummarySerializer.total_profit_loss data
      = HoldingViewSet.total_profit_loss response /\
      PortfolioSummarySerializer.total_profit_loss_percentage data
      = HoldingViewSet.total_profit_loss_percentage response /\
      PortfolioSummarySerializer.holdings_count data
      = HoldingViewSet.holdings_count response /\
      PortfolioSummarySerializer.total_balance data = User.balance user /\
      PortfolioSummarySerializer.transactions_count data
      = List.length (TransactionViewSet.get_queryset user db) /\
      (HoldingViewSet.get_queryset user db = [] ->
       HoldingViewSet.total_invested response = 0 /\
       HoldingViewSet.total_current_value response = 0 /\
       HoldingViewSet.total_profit_loss response = 0 /\
       (HoldingViewSet.total_profit_loss_percentage response == 0)%Q /\
       HoldingViewSet.holdings_count response = 0%nat).
Proof.
  intros user db Hstaff.
  unfold HoldingViewSet.summary, PortfolioViewSet.summary_data,
    HoldingViewSet.get_queryset, TransactionViewSet.get_queryset.
  rewrite Hstaff.
  set (holdings := List.filter _ (HoldingViewSet.objects_all db)).
  destruct (0 <? builtins.sum (map Holding.total_invested holdings)) eqn:E.
  - apply Z.ltb_lt in E. rewrite truediv_nonzero by lia. simpl.
    eexists. eexists. split; [reflexivity|]. split; [reflexivity|]. simpl.
    do 7 (split; [reflexivity|]).
    intros Hnil. rewrite Hnil in E. discriminate E.
  - simpl. eexists. eexists. split; [reflexivity|]. split; [reflexivity|]. simpl.
    do 7 (split; [reflexivity|]).
    intros Hnil. rewrite Hnil. repeat split.
Qed.

Lemma summaries_agree_witness :
  exists response data,
    HoldingViewSet.summary example_user portfolio_db = Ok response /\
    PortfolioViewSet.summary_data example_user portfolio_db = Ok data /\
    PortfolioSummarySerializer.total_invested data
    = HoldingViewSet.total_invested response /\
    PortfolioSummarySerializer.total_current_value data
    = HoldingViewSet.total_current_value response /\
    PortfolioSummarySerializer.total_profit_loss data
    = HoldingViewSet.total_profit_loss response /\
    PortfolioSummarySerializer.total_profit_loss_percentage data
    = HoldingViewSet.total_profit_loss_percentage response /\
    PortfolioSummarySerializer.holdings_count data
    = HoldingViewSet.holdings_count response /\
    PortfolioSummarySerializer.total_balance data = User.balance example_user /\
    PortfolioSummarySerializer.transactions_count data
    = List.length (TransactionViewSet.get_queryset example_user portfolio_db) /\
    (HoldingViewSet.get_queryset example_user portfolio_db = [] ->
     HoldingViewSet.total_invested response = 0 /\
     HoldingViewSet.total_current_value response = 0 /\
     HoldingViewSet.total_profit_loss response = 0 /\
     (HoldingViewSet.total_profit_loss_percentage response == 0)%Q /\
     HoldingViewSet.holdings_count response = 0%nat).
Proof.
  apply (summaries_agree example_user portfolio_db). reflexivity.
Defined.

(** * Accounts *)

(** The password check of the two user serializers.  At registration
    the attributes are returned unchanged exactly when the two passwords
    are equal, and refused with a [ValidationError] otherwise.  The check of
    [UserSerializer] reads both keys with a subscript: on a partial update
    without [password] it raises [KeyError('password')], and with
    [password] but without [password_confirm] it raises
    [KeyError('password_confirm')], whatever else the payload holds. *)
Theorem password_confirmation :
  (forall attrs,
      (UserRegistrationSerializer.password attrs
       = UserRegistrationSerializer.password_confirm attrs ->
       UserRegistrationSerializer.validate attrs = Ok attrs) /\
      (UserRegistrationSerializer.password attrs
       <> UserRegistrationSerializer.password_confirm attrs ->
       UserRegistrationSerializer.validate attrs
       = Raise (ValidationError ["non_field_errors"%string]))) /\
  (forall balance password password_confirm,
      UserSerializer.validate
        (UserSerializer.mk balance (Some password) (Some password_confirm))
      = (if String.eqb password password_confirm
         then Ok (UserSerializer.mk balance (Some password) (Some password_confirm))
         else Raise (ValidationError ["non_field_errors"%string]))) /\
  (forall balance password_confirm,
      UserSerializer.validate (UserSerializer.mk balance None password_confirm)
      = Raise (KeyError "password")) /\
  (forall balance password,
      UserSerializer.validate (UserSerializer.mk balance (Some password) None)
      = Raise (KeyError "password_confirm")).
Proof.
  split; [|repeat split].
  intros attrs. unfold UserRegistrationSerializer.validate. split.
  - intros ->. now rewrite String.eqb_refl.
  - intros Hne. apply String.eqb_neq in Hne. now rewrite Hne.
Qed.

Section Login.
Variable account : Type.
Variable authenticate : string -> string -> option account.
Variable is_active : account -> bool.

(** X16.  The login check validates exactly the requests whose email and
    password are both present and not empty and for which [authenticate]
    returns an account that is active; the outcome then carries that
    account.  It never validates an inactive account, and it answers
    'Must include email and password' whenever one of the two is missing or
    empty. *)
Theorem login_validates_active_accounts :
  forall attrs,
    (forall email password user,
        UserLoginSerializer.validate account authenticate is_active attrs
        = UserLoginSerializer.Validated account email password user <->
        UserLoginSerializer.email attrs = Some email /\
        UserLoginSerializer.password attrs = Some password /\
        email <> ""%string /\ password <> ""%string /\
        authenticate email password = Some user /\
        is_active user = true) /\
    ((UserLoginSerializer.email attrs = None \/
      UserLoginSerializer.email attrs = Some ""%string \/
      UserLoginSerializer.password attrs = None \/
      UserLoginSerializer.password attrs = Some ""%string) ->
     UserLoginSerializer.validate account authenticate is_active attrs
     = UserLoginSerializer.Rejected account "Must include email and password").
Proof.
  intros [email password]. unfold UserLoginSerializer.validate,
    UserLoginSerializer.truthy. simpl. split.
  - intros e p user.
    destruct email as [e0|]; [destruct (String.eqb e0 "") eqn:Ee|].
    + apply String.eqb_eq in Ee. subst e0. split; [discriminate|].
      intros (He & _ & Hne & _). injection He as <-. contradiction.
    + apply String.eqb_neq in Ee.
      destruct password as [p0|]; [destruct (String.eqb p0 "") eqn:Ep|].
      * apply String.eqb_eq in Ep. subst p0. split; [discriminate|].
        intros (_ & Hp & _ & Hne & _). injection Hp as <-. contradiction.
      * apply String.eqb_neq in Ep.
        destruct (authenticate e0 p0) as [u|] eqn:Hauth.
        -- destruct (is_active u) eqn:Hactive.
           ++ split.
              ** intros [= <- <- <-]. repeat split; assumption.
              ** intros (He & Hp & _ & _ & Hu & _).
                 injection He as <-. injection Hp as <-.
                 rewrite Hauth in Hu. injection Hu as <-. reflexivity.
           ++ split; [discriminate|].
              intros (He & Hp & _ & _ & Hu & Ha).
              injection He as <-. injection Hp as <-.
              rewrite Hauth in Hu. injection Hu as <-. congruence.
        -- split; [discriminate|].
           intros (He & Hp & _ & _ & Hu & _).
           injection He as <-. injection Hp as <-. congruence.
      * split; [discriminate|]. intros (_ & Hp & _). discriminate Hp.
    + split; [discriminate|]. intros (He & _). discriminate He.
  - intros [He | [He | [Hp | Hp]]]; subst; try reflexivity.
    + destruct email as [e0|]; [|reflexivity].
      destruct (String.eqb e0 ""); reflexivity.
    + destruct email as [e0|]; [|reflexivity].
      destruct (String.eqb e0 ""); reflexivity.
Qed.
End Login.




(** * Decimal arithmetic *)

(** The number of digits, the exponent of the leading digit and the rounding
    of the context do what their names say. *)
Lemma digits_fuel_spec fuel : forall n,
  0 < n < 2 ^ Z.of_nat fuel ->
  1 <= decimal.digits_fuel fuel n /\
  10 ^ (decimal.digits_fuel fuel n - 1) <= n < 10 ^ decimal.digits_fuel fuel n.
Proof.
  induction fuel as [|fuel IH]; intros n Hn.
  - simpl in Hn. lia.
  - cbn [decimal.digits_fuel]. destruct (n <? 10) eqn:E.
    + apply Z.ltb_lt in E. simpl. lia.
    + apply Z.ltb_ge in E.
      assert (Hdiv : 0 < n / 10 < 2 ^ Z.of_nat fuel).
      { rewrite Nat2Z.inj_succ, Z.pow_succ_r in Hn by lia.
        split.
        - apply Z.div_str_pos. lia.
        - apply Z.div_lt_upper_bound; lia. }
      destruct (IH _ Hdiv) as (Hk & Hlo & Hhi).
      set (k := decimal.digits_fuel fuel (n / 10)) in *.
      replace (1 + k - 1) with (Z.succ (k - 1)) by lia.
      replace (1 + k) with (Z.succ k) by lia.
      rewrite !Z.pow_succ_r by lia.
      pose proof (Z.mul_div_le n 10 ltac:(lia)).
      pose proof (Z.mul_succ_div_gt n 10 ltac:(lia)).
      lia.
Qed.

Lemma digits_spec n :
  0 < n ->
  1 <= decimal.digits n /\ 10 ^ (decimal.digits n - 1) <= n < 10 ^ decimal.digits n.
Proof.
  intros Hn. unfold decimal.digits. apply digits_fuel_spec.
  split; [exact Hn|].
  rewrite Nat2Z.inj_succ, Z2Nat.id by apply Z.log2_nonneg.
  apply Z.log2_spec. exact Hn.
Qed.

Local Open Scope Q_scope.

Lemma pow10_pos z : 0 < 10 ^ z.
Proof. apply Qpower_0_lt. reflexivity. Qed.

Lemma pow10_add a b : 10 ^ (a + b) == 10 ^ a * 10 ^ b.
Proof. apply Qpower_plus. discriminate. Qed.

Lemma pow10_Z z : (0 <= z)%Z -> inject_Z (10 ^ z) == 10 ^ z.
Proof. intros Hz. now rewrite Zpower_Qpower. Qed.

Lemma pow10_inv z : 10 ^ z * 10 ^ (- z) == 1.
Proof. rewrite <- pow10_add, Z.add_opp_diag_r. reflexivity. Qed.

Lemma digits_Q m :
  (0 < m)%Z ->
  10 ^ (decimal.digits m - 1) <= inject_Z m /\ inject_Z m < 10 ^ decimal.digits m.
Proof.
  intros Hm. destruct (digits_spec m Hm) as (Hk & Hlo & Hhi).
  rewrite <- !pow10_Z by lia. split.
  - now rewrite <- Zle_Qle.
  - now rewrite <- Zlt_Qlt.
Qed.

Lemma reaches_spec n d k :
  (0 < n)%Z -> (0 < d)%Z ->
  (if (0 <=? k)%Z then (d * 10 ^ k <=? n)%Z else (d <=? n * 10 ^ (- k))%Z) = true <->
  inject_Z d * 10 ^ k <= inject_Z n.
Proof.
  intros Hn Hd. destruct (0 <=? k)%Z eqn:Hk.
  - apply Z.leb_le in Hk. rewrite Z.leb_le, Zle_Qle, inject_Z_mult, pow10_Z by exact Hk.
    reflexivity.
  - apply Z.leb_gt in Hk.
    rewrite Z.leb_le, Zle_Qle, inject_Z_mult, pow10_Z by lia.
    pose proof (pow10_pos k) as Hp. pose proof (pow10_pos (- k)) as Hq.
    pose proof (pow10_inv k) as Hinv.
    set (a := 10 ^ k) in *. set (b := 10 ^ (- k)) in *.
    set (x := inject_Z d). set (y := inject_Z n).
    split; intros H.
    + assert (x * a <= y * b * a) by (apply Qmult_le_compat_r; [exact H | lra]).
      assert (y * b * a == y) by (rewrite <- Qmult_assoc, (Qmult_comm b a), Hinv; ring).
      lra.
    + assert (x * a * b <= y * b) by (apply Qmult_le_compat_r; [exact H | lra]).
      assert (x * a * b == x) by (rewrite <- Qmult_assoc, Hinv; ring).
      lra.
Qed.

Lemma adjusted_spec n d :
  (0 < n)%Z -> (0 < d)%Z ->
  inject_Z d * 10 ^ decimal.adjusted n d <= inject_Z n /\
  inject_Z n < inject_Z d * 10 ^ (decimal.adjusted n d + 1).
Proof.
  intros Hn Hd. unfold decimal.adjusted.
  destruct (digits_Q n Hn) as [Hnlo Hnhi]. destruct (digits_Q d Hd) as [Hdlo Hdhi].
  set (dn := decimal.digits n) in *. set (dd := decimal.digits d) in *.
  set (k := (dn - dd)%Z).
  pose proof (reaches_spec n d k Hn Hd) as Htest.
  destruct (if (0 <=? k)%Z then (d * 10 ^ k <=? n)%Z else (d <=? n * 10 ^ (- k))%Z).
  - split; [now apply Htest|].
    assert (Heq : 10 ^ dn == 10 ^ (dd - 1) * 10 ^ (k + 1)).
    { rewrite <- pow10_add. replace (dd - 1 + (k + 1))%Z with dn by (unfold k; lia).
      reflexivity. }
    pose proof (pow10_pos (k + 1)). pose proof (pow10_pos (dd - 1)).
    assert (10 ^ (dd - 1) * 10 ^ (k + 1) <= inject_Z d * 10 ^ (k + 1))
      by (apply Qmult_le_compat_r; lra).
    lra.
  - assert (Hfalse : ~ inject_Z d * 10 ^ k <= inject_Z n).
    { intros H. apply Htest in H. discriminate H. }
    apply Qnot_le_lt in Hfalse.
    replace (k - 1 + 1)%Z with k by lia. split; [|exact Hfalse].
    assert (Heq : 10 ^ (dn - 1) == 10 ^ dd * 10 ^ (k - 1)).
    { rewrite <- pow10_add. replace (dd + (k - 1))%Z with (dn - 1)%Z by (unfold k; lia).
      reflexivity. }
    pose proof (pow10_pos (k - 1)).
    assert (inject_Z d * 10 ^ (k - 1) <= 10 ^ dd * 10 ^ (k - 1))
      by (apply Qmult_le_compat_r; lra).
    lra.
Qed.

(** Rounding to the nearest integer stays between the integers around the
    number. *)
Lemma round_half_even_floor q :
  (Qfloor q <= decimal.round_half_even q <= Qfloor q + 1)%Z.
Proof.
  unfold decimal.round_half_even.
  destruct (q - inject_Z (Qfloor q) ?= 1 # 2); [destruct (Z.even (Qfloor q))| |]; lia.
Qed.

Lemma round_half_even_lower m q :
  inject_Z m <= q -> (m <= decimal.round_half_even q)%Z.
Proof.
  intros H. apply Qfloor_resp_le in H. rewrite Qfloor_Z in H.
  pose proof (round_half_even_floor q). lia.
Qed.

Lemma round_half_even_upper m q :
  q <= inject_Z m -> (decimal.round_half_even q <= m)%Z.
Proof.
  intros H. pose proof (Qfloor_le q) as Hfloor.
  assert (Hle : (Qfloor q <= m)%Z) by (rewrite Zle_Qle; lra).
  unfold decimal.round_half_even.
  destruct (Qcompare_spec (q - inject_Z (Qfloor q)) (1 # 2)) as [Heq | Hlt | Hgt].
  - destruct (Z.even (Qfloor q)); [exact Hle|].
    assert (inject_Z (Qfloor q) < inject_Z m) by lra.
    rewrite <- Zlt_Qlt in *. lia.
  - exact Hle.
  - assert (inject_Z (Qfloor q) < inject_Z m) by lra.
    rewrite <- Zlt_Qlt in *. lia.
Qed.

Lemma round_half_even_integer m q :
  q == inject_Z m -> decimal.round_half_even q = m.
Proof.
  intros H. apply Z.le_antisymm.
  - apply round_half_even_upper. lra.
  - apply round_half_even_lower. lra.
Qed.

Lemma Qnum_pos q : 0 < q -> (0 < Qnum q)%Z.
Proof. destruct q as [n d]. unfold Qlt. simpl. lia. Qed.

Lemma Qnum_neg q : q < 0 -> (Qnum q < 0)%Z.
Proof. destruct q as [n d]. unfold Qlt. simpl. lia. Qed.

Lemma Qeq_bool_nonzero q : ~ q == 0 -> Qeq_bool q 0 = false.
Proof.
  intros H. destruct (Qeq_bool q 0) eqn:E; [|reflexivity].
  apply Qeq_bool_eq in E. contradiction.
Qed.

Lemma adjusted_Q q :
  0 < q ->
  10 ^ decimal.adjusted (Qnum q) (Zpos (Qden q)) <= q /\
  q < 10 ^ (decimal.adjusted (Qnum q) (Zpos (Qden q)) + 1).
Proof.
  intros Hq. pose proof (Qnum_pos q Hq) as Hn.
  destruct (adjusted_spec (Qnum q) (Zpos (Qden q)) Hn ltac:(lia)) as [Hlo Hhi].
  assert (Hd : 0 < inject_Z (Zpos (Qden q))) by reflexivity.
  assert (Hq' : q * inject_Z (Zpos (Qden q)) == inject_Z (Qnum q)).
  { destruct q as [n d]. simpl. rewrite Qmake_Qdiv. field. discriminate. }
  set (E := decimal.adjusted (Qnum q) (Zpos (Qden q))) in *.
  split.
  - apply (Qmult_le_r _ _ (inject_Z (Zpos (Qden q)))); [exact Hd | lra].
  - apply (Qmult_lt_r _ _ (inject_Z (Zpos (Qden q)))); [exact Hd | lra].
Qed.

Lemma round_context_pos q :
  0 < q ->
  10 ^ decimal.adjusted (Qnum q) (Zpos (Qden q)) <= decimal.round_context q.
Proof.
  intros Hq. destruct (adjusted_Q q Hq) as [Hlo _].
  unfold decimal.round_context. rewrite Qeq_bool_nonzero by lra.
  rewrite Z.abs_eq by (pose proof (Qnum_pos q Hq); lia).
  set (E := decimal.adjusted (Qnum q) (Zpos (Qden q))) in *.
  unfold decimal.prec. set (e := (E - (28 - 1))%Z).
  pose proof (pow10_pos e) as He.
  assert (Hsplit : 10 ^ E == inject_Z (10 ^ 27) * 10 ^ e).
  { rewrite pow10_Z by lia. rewrite <- pow10_add.
    replace (27 + e)%Z with E by (unfold e; lia). reflexivity. }
  assert (Hx : inject_Z (10 ^ 27) <= q / 10 ^ e).
  { apply Qle_shift_div_l; [exact He | lra]. }
  apply round_half_even_lower in Hx. rewrite Zle_Qle in Hx.
  rewrite Hsplit. apply Qmult_le_compat_r; [exact Hx | lra].
Qed.

Lemma round_context_ge_pow10 j q :
  10 ^ j <= q -> 10 ^ j <= decimal.round_context q.
Proof.
  intros Hj. pose proof (pow10_pos j) as Hpos.
  assert (Hq : 0 < q) by lra.
  destruct (adjusted_Q q Hq) as [_ Hhi].
  pose proof (round_context_pos q Hq) as Hround.
  set (E := decimal.adjusted (Qnum q) (Zpos (Qden q))) in *.
  assert (Hlt : 10 ^ j < 10 ^ (E + 1)) by lra.
  apply Qpower_lt_compat_l_inv in Hlt; [|reflexivity].
  assert (10 ^ j <= 10 ^ E) by (apply Qpower_le_compat_l; [lia | discriminate]).
  lra.
Qed.

Lemma adjusted_abs q :
  ~ q == 0 ->
  10 ^ decimal.adjusted (Z.abs (Qnum q)) (Zpos (Qden q)) <= Qabs q /\
  Qabs q < 10 ^ (decimal.adjusted (Z.abs (Qnum q)) (Zpos (Qden q)) + 1).
Proof.
  intros Hq.
  assert (Hpos : 0 < Qabs q).
  { destruct (Qlt_le_dec 0 (Qabs q)) as [H|H]; [exact H|].
    exfalso. apply Hq. pose proof (Qabs_nonneg q). assert (Qabs q == 0) by lra.
    destruct q as [n d]. unfold Qabs, Qeq in *. simpl in *. lia. }
  pose proof (adjusted_Q (Qabs q) Hpos) as H.
  destruct q as [n d]. exact H.
Qed.

(** For a number that is not zero the rounded value is the rounded
    coefficient at the exponent [e]. *)
Lemma round_context_nonzero q :
  ~ q == 0 ->
  decimal.round_context q
  = (inject_Z (decimal.round_half_even
                 (q / 10 ^ (decimal.adjusted (Z.abs (Qnum q)) (Zpos (Qden q)) - 27)))
     * 10 ^ (decimal.adjusted (Z.abs (Qnum q)) (Zpos (Qden q)) - 27))%Q.
Proof.
  intros Hq. unfold decimal.round_context. now rewrite Qeq_bool_nonzero.
Qed.

Lemma round_context_zero q : q == 0 -> decimal.round_context q = 0.
Proof.
  intros Hq. unfold decimal.round_context. now rewrite (Qeq_eq_bool _ _ Hq).
Qed.

(** Rounding does not cross an integer, as long as the number has fewer
    than 28 digits before the point. *)
Lemma round_context_integer_bounds m q :
  Qabs q < 10 ^ 28 ->
  (inject_Z m <= q -> inject_Z m <= decimal.round_context q) /\
  (q <= inject_Z m -> decimal.round_context q <= inject_Z m).
Proof.
  intros Hsmall.
  destruct (Qeq_dec q 0) as [Hzero | Hq].
  - rewrite (round_context_zero q Hzero). split; lra.
  - rewrite (round_context_nonzero q Hq).
    destruct (adjusted_abs q Hq) as [Hlo _].
    set (E := decimal.adjusted (Z.abs (Qnum q)) (Zpos (Qden q))) in *.
    assert (HE : (E < 28)%Z).
    { apply (Qpower_lt_compat_l_inv 10); [lra | reflexivity]. }
    set (e := (E - 27)%Z).
    pose proof (pow10_pos e) as He.
    assert (Hm : inject_Z (m * 10 ^ (- e)) * 10 ^ e == inject_Z m).
    { rewrite inject_Z_mult, pow10_Z by (unfold e; lia).
      rewrite <- Qmult_assoc, (Qmult_comm (10 ^ (- e))), pow10_inv. ring. }
    split; intros H.
    + assert (Hx : inject_Z (m * 10 ^ (- e)) <= q / 10 ^ e).
      { apply Qle_shift_div_l; [exact He | lra]. }
      apply round_half_even_lower in Hx. rewrite Zle_Qle in Hx.
      rewrite <- Hm. apply Qmult_le_compat_r; [exact Hx | lra].
    + assert (Hx : q / 10 ^ e <= inject_Z (m * 10 ^ (- e))).
      { apply Qle_shift_div_r; [exact He | lra]. }
      apply round_half_even_upper in Hx. rewrite Zle_Qle in Hx.
      rewrite <- Hm. apply Qmult_le_compat_r; [exact Hx | lra].
Qed.

Lemma round_context_neg q : q < 0 -> decimal.round_context q < 0.
Proof.
  intros Hq. rewrite (round_context_nonzero q) by lra.
  destruct (adjusted_abs q ltac:(lra)) as [Hlo _].
  rewrite Qabs_neg in Hlo by lra.
  set (E := decimal.adjusted (Z.abs (Qnum q)) (Zpos (Qden q))) in *.
  set (e := (E - 27)%Z). pose proof (pow10_pos e) as He.
  assert (Hsplit : 10 ^ E == inject_Z (10 ^ 27) * 10 ^ e).
  { rewrite pow10_Z by lia. rewrite <- pow10_add.
    replace (27 + e)%Z with E by (unfold e; lia). reflexivity. }
  assert (Hx : q / 10 ^ e <= inject_Z (- 10 ^ 27)).
  { apply Qle_shift_div_r; [exact He|]. rewrite inject_Z_opp. lra. }
  apply round_half_even_upper in Hx. rewrite Zle_Qle in Hx.
  assert (inject_Z (decimal.round_half_even (q / 10 ^ e)) * 10 ^ e
          <= inject_Z (- 10 ^ 27) * 10 ^ e)
    by (apply Qmult_le_compat_r; [exact Hx | lra]).
  rewrite inject_Z_opp in *. pose proof (pow10_pos E). lra.
Qed.

Lemma round_context_sign q :
  (0 < q -> 0 < decimal.round_context q) /\
  (q < 0 -> decimal.round_context q < 0) /\
  (q == 0 -> decimal.round_context q == 0).
Proof.
  split; [|split].
  - intros Hq. pose proof (round_context_pos q Hq).
    pose proof (pow10_pos (decimal.adjusted (Qnum q) (Zpos (Qden q)))). lra.
  - apply round_context_neg.
  - intros Hq. now rewrite (round_context_zero q Hq).
Qed.

(** ** Percentages *)

Lemma Decimal_ratio a b :
  (0 < b)%Z -> decimal.Decimal a / decimal.Decimal b == inject_Z a / inject_Z b.
Proof.
  intros Hb. unfold decimal.Decimal. rewrite !Qmake_Qdiv.
  assert (~ inject_Z b == 0).
  { intros H. assert (0 < inject_Z b) by (rewrite <- (Zlt_Qlt 0); exact Hb). lra. }
  field. assumption.
Qed.

Lemma ratio_ge m a b :
  (0 < b)%Z ->
  (inject_Z m <= decimal.Decimal a / decimal.Decimal b <-> (m * b <= a)%Z).
Proof.
  intros Hb. rewrite (Decimal_ratio a b Hb).
  assert (Hpos : 0 < inject_Z b) by (rewrite <- (Zlt_Qlt 0); exact Hb).
  rewrite Zle_Qle, inject_Z_mult. split; intros H.
  - apply (Qmult_le_compat_r _ _ (inject_Z b)) in H; [|lra].
    assert (inject_Z a / inject_Z b * inject_Z b == inject_Z a) by (field; lra).
    lra.
  - apply Qle_shift_div_l; assumption.
Qed.

Lemma ratio_le m a b :
  (0 < b)%Z ->
  (decimal.Decimal a / decimal.Decimal b <= inject_Z m <-> (a <= m * b)%Z).
Proof.
  intros Hb. rewrite (Decimal_ratio a b Hb).
  assert (Hpos : 0 < inject_Z b) by (rewrite <- (Zlt_Qlt 0); exact Hb).
  rewrite Zle_Qle, inject_Z_mult. split; intros H.
  - apply (Qmult_le_compat_r _ _ (inject_Z b)) in H; [|lra].
    assert (inject_Z a / inject_Z b * inject_Z b == inject_Z a) by (field; lra).
    lra.
  - apply Qle_shift_div_r; assumption.
Qed.

(** The sign of the rounded quotient is the sign of the dividend, and the
    quotient of a loss that does not exceed the divisor is at least -1. *)
Lemma quotient_sign a b :
  (0 < b)%Z ->
  (0 < decimal.quotient (decimal.Decimal a) (decimal.Decimal b) <-> (0 < a)%Z) /\
  (decimal.quotient (decimal.Decimal a) (decimal.Decimal b) < 0 <-> (a < 0)%Z) /\
  (decimal.quotient (decimal.Decimal a) (decimal.Decimal b) == 0 <-> a = 0%Z) /\
  ((- b <= a)%Z -> -1 <= decimal.quotient (decimal.Decimal a) (decimal.Decimal b)).
Proof.
  intros Hb. unfold decimal.quotient.
  set (q := decimal.Decimal a / decimal.Decimal b).
  pose proof (ratio_ge 0 a b Hb) as Hge. pose proof (ratio_le 0 a b Hb) as Hle.
  pose proof (ratio_ge (-1) a b Hb) as Hge1. fold q in Hge, Hle, Hge1.
  change (inject_Z 0) with 0 in Hge, Hle. change (inject_Z (-1)) with (-1) in Hge1.
  destruct (round_context_sign q) as (Hpos & Hneg & Hzero).
  assert (Hcases : (0 < a)%Z /\ 0 < q \/ (a < 0)%Z /\ q < 0 \/ a = 0%Z /\ q == 0).
  { destruct (Z.lt_trichotomy a 0) as [Ha | [Ha | Ha]].
    - right. left. split; [exact Ha|].
      apply Qnot_le_lt. intros H. apply Hge in H. lia.
    - right. right. split; [exact Ha|].
      assert (0 <= q) by (apply Hge; lia). assert (q <= 0) by (apply Hle; lia). lra.
    - left. split; [exact Ha|].
      apply Qnot_le_lt. intros H. apply Hle in H. lia. }
  split; [|split; [|split]].
  - destruct Hcases as [[Ha Hq] | [[Ha Hq] | [Ha Hq]]];
      specialize (Hpos); split; intros H; try lia; try (now apply Hpos).
    + apply Hneg in Hq. lra.
    + apply Hzero in Hq. lra.
  - destruct Hcases as [[Ha Hq] | [[Ha Hq] | [Ha Hq]]];
      split; intros H; try lia; try (now apply Hneg).
    + apply Hpos in Hq. lra.
    + apply Hzero in Hq. lra.
  - destruct Hcases as [[Ha Hq] | [[Ha Hq] | [Ha Hq]]];
      split; intros H; try lia; try (now apply Hzero).
    + apply Hpos in Hq. lra.
    + apply Hneg in Hq. lra.
  - intros Hloss.
    destruct (Qlt_le_dec q 0) as [Hq | Hq].
    + assert (Hsmall : Qabs q < 10 ^ 28).
      { rewrite Qabs_neg by lra. assert (-1 <= q) by (apply Hge1; lia).
        assert (1 < 10 ^ 28) by reflexivity. lra. }
      apply (round_context_integer_bounds (-1) q Hsmall). apply Hge1. lia.
    + destruct (Qeq_dec q 0) as [Hz | Hnz].
      * rewrite (round_context_zero q Hz). lra.
      * assert (0 < decimal.round_context q) by (apply Hpos; lra). lra.
Qed.

(** X18.  The percentage of a holding with a positive amount invested has
    the sign of its profit or loss, and so agrees with the two listings: a
    holding of the listing is among the profitable ones exactly when its
    percentage is positive and among the losing ones exactly when it is
    negative.  Rounding never turns a gain or a loss into zero, and a
    holding whose current value is not negative never shows less than
    -100. *)
Theorem percentage_agrees_with_listings :
  forall user db h,
    In h (HoldingViewSet.get_queryset user db) ->
    (0 < Holding.total_invested h)%Z ->
    exists p,
      Holding.profit_loss_percentage h = Ok p /\
      (In h (HoldingViewSet.profitable user db) <-> 0 < p) /\
      (In h (HoldingViewSet.losing user db) <-> p < 0) /\
      (p == 0 <-> Holding.profit_loss h = 0%Z) /\
      ((0 <= Holding.current_value h)%Z -> -100 <= p).
Proof.
  intros user db h Hin Hti.
  exists (percentage h). split; [apply profit_loss_percentage_value|].
  unfold percentage.
  replace (0 <? Holding.total_invested h)%Z with true
    by (symmetry; now apply Z.ltb_lt).
  destruct (quotient_sign (Holding.profit_loss h) (Holding.total_invested h) Hti)
    as (Hpos & Hneg & Hzero & Hfloor).
  set (r := decimal.quotient _ _) in *.
  rewrite profitable_In, losing_In.
  unfold Holding.profit_loss, Holding.current_value, Holding.total_invested in *.
  split; [|split; [|split]].
  - split.
    + intros [_ Hgain]. assert (0 < r) by (apply Hpos; lia). lra.
    + intros Hp. split; [exact Hin|]. assert (0 < r) by lra. apply Hpos in H. lia.
  - split.
    + intros [_ Hloss]. assert (r < 0) by (apply Hneg; lia). lra.
    + intros Hp. split; [exact Hin|]. assert (r < 0) by lra. apply Hneg in H. lia.
  - split.
    + intros Hp. apply Hzero. lra.
    + intros Hp. apply Hzero in Hp. lra.
  - intros Hvalue. assert (-1 <= r) by (apply Hfloor; lia). lra.
Qed.

Lemma percentage_agrees_with_listings_witness :
  exists p,
    Holding.profit_loss_percentage (Holding.mk 2 7 "MSFT" 5 3000 2400) = Ok p /\
    (In (Holding.mk 2 7 "MSFT" 5 3000 2400)
        (HoldingViewSet.profitable example_user portfolio_db) <-> 0 < p) /\
    (In (Holding.mk 2 7 "MSFT" 5 3000 2400)
        (HoldingViewSet.losing example_user portfolio_db) <-> p < 0) /\
    (p == 0 <-> Holding.profit_loss (Holding.mk 2 7 "MSFT" 5 3000 2400) = 0%Z) /\
    ((0 <= Holding.current_value (Holding.mk 2 7 "MSFT" 5 3000 2400))%Z -> -100 <= p).
Proof.
  apply (percentage_agrees_with_listings example_user portfolio_db
           (Holding.mk 2 7 "MSFT" 5 3000 2400)).
  - simpl. right. left. reflexivity.
  - reflexivity.
Defined.

(** ** Rendering the portfolio summary *)

Lemma round2_hundredths p :
  decimal.round_half_even (decimal.round2 p * 100) = decimal.round_half_even (p * 100).
Proof.
  unfold decimal.round2. apply round_half_even_integer.
  rewrite Qmake_Qdiv. field.
Qed.

Lemma DecimalField_amount_cases max_digits v :
  PortfolioSummarySerializer.DecimalField_amount max_digits v = Raise InvalidOperation \/
  PortfolioSummarySerializer.DecimalField_amount max_digits v = Ok v.
Proof.
  unfold PortfolioSummarySerializer.DecimalField_amount.
  destruct (10 ^ max_digits <=? Z.abs v)%Z; [now left | now right].
Qed.

Lemma DecimalField_amount_fits max_digits v :
  (Z.abs v < 10 ^ max_digits)%Z ->
  PortfolioSummarySerializer.DecimalField_amount max_digits v = Ok v.
Proof.
  intros H. unfold PortfolioSummarySerializer.DecimalField_amount.
  now replace (10 ^ max_digits <=? Z.abs v)%Z with false
    by (symmetry; apply Z.leb_gt; exact H).
Qed.

Lemma DecimalField_amount_overflows max_digits v :
  (10 ^ max_digits <= Z.abs v)%Z ->
  PortfolioSummarySerializer.DecimalField_amount max_digits v = Raise InvalidOperation.
Proof.
  intros H. unfold PortfolioSummarySerializer.DecimalField_amount.
  now replace (10 ^ max_digits <=? Z.abs v)%Z with true
    by (symmetry; apply Z.leb_le; exact H).
Qed.

(** One field that does not fit is enough for the rendering to fail. *)
Lemma to_representation_overflows data :
  PortfolioSummarySerializer.DecimalField 5
    (PortfolioSummarySerializer.total_profit_loss_percentage data)
  = Raise InvalidOperation ->
  PortfolioSummarySerializer.to_representation data = Raise InvalidOperation.
Proof.
  intros H. unfold PortfolioSummarySerializer.to_representation. rewrite H.
  destruct (DecimalField_amount_cases 15 (PortfolioSummarySerializer.total_balance data))
    as [-> | ->]; [reflexivity|].
  destruct (DecimalField_amount_cases 15 (PortfolioSummarySerializer.total_invested data))
    as [-> | ->]; [reflexivity|].
  destruct (DecimalField_amount_cases 15
              (PortfolioSummarySerializer.total_current_value data))
    as [-> | ->]; [reflexivity|].
  destruct (DecimalField_amount_cases 15
              (PortfolioSummarySerializer.total_profit_loss data))
    as [-> | ->]; reflexivity.
Qed.

(** X19.  The portfolio summary is rendered through fields of fixed width,
    and the percentage has five digits.  When the holdings of the user are
    worth at least eleven times the amount invested, the gain is 1000 percent
    or more, the percentage does not fit, and the request raises
    [InvalidOperation] and answers nothing.  When the balance and the totals
    fit their fifteen digits and the holdings are worth at most ten times
    the amount invested, the summary is answered, with the balance, the
    totals and a percentage between -100.00 and 900.00. *)
Theorem portfolio_summary_widths :
  forall user db,
    let invested :=
      builtins.sum (map Holding.total_invested (PortfolioViewSet.holdings_of user db)) in
    let value :=
      builtins.sum (map Holding.current_value (PortfolioViewSet.holdings_of user db)) in
    ((0 < invested)%Z -> (11 * invested <= value)%Z ->
     PortfolioViewSet.summary user db = Raise InvalidOperation) /\
    ((Z.abs (User.balance user) < 10 ^ 15)%Z ->
     (0 <= invested < 10 ^ 15)%Z -> (0 <= value < 10 ^ 15)%Z ->
     (value <= 10 * invested)%Z ->
     exists rendered,
       PortfolioViewSet.summary user db = Ok rendered /\
       PortfolioSummarySerializer.r_total_balance rendered = User.balance user /\
       PortfolioSummarySerializer.r_total_invested rendered = invested /\
       PortfolioSummarySerializer.r_total_current_value rendered = value /\
       PortfolioSummarySerializer.r_total_profit_loss rendered = (value - invested)%Z /\
       (-10000 <= PortfolioSummarySerializer.r_total_profit_loss_percentage rendered
        <= 90000)%Z /\
       PortfolioSummarySerializer.r_holdings_count rendered
       = List.length (PortfolioViewSet.holdings_of user db)).
Proof.
  intros user db invested value.
  destruct (portfolio_summary_data_Ok user db) as (p & Hdata & Hflat & Hratio).
  fold (PortfolioViewSet.holdings_of user db) in Hdata, Hflat, Hratio.
  fold invested in Hdata, Hflat, Hratio. fold value in Hdata, Hratio.
  unfold PortfolioViewSet.summary. rewrite Hdata. cbn [result_bind].
  split.
  - intros Hpos Hgain. apply to_representation_overflows.
    cbn [PortfolioSummarySerializer.total_profit_loss_percentage].
    unfold PortfolioSummarySerializer.DecimalField. rewrite round2_hundredths.
    apply DecimalField_amount_overflows.
    rewrite (Hratio Hpos). unfold decimal.quotient.
    set (q := decimal.Decimal (value - invested) / decimal.Decimal invested).
    assert (Hq : 10 ^ 1 <= q).
    { change (10 ^ 1) with (inject_Z 10). apply ratio_ge; [exact Hpos | lia]. }
    apply round_context_ge_pow10 in Hq. change (10 ^ 1) with 10 in Hq.
    assert (Hm : inject_Z 100000 <= decimal.round_context q * 100 * 100).
    { change (inject_Z 100000) with 100000. lra. }
    apply round_half_even_lower in Hm. change (10 ^ 5)%Z with 100000%Z. lia.
  - intros Hbalance Hinvested Hvalue Hbound.
    unfold PortfolioSummarySerializer.to_representation.
    cbn [PortfolioSummarySerializer.total_balance
           PortfolioSummarySerializer.total_invested
           PortfolioSummarySerializer.total_current_value
           PortfolioSummarySerializer.total_profit_loss
           PortfolioSummarySerializer.total_profit_loss_percentage
           PortfolioSummarySerializer.holdings_count
           PortfolioSummarySerializer.transactions_count].
    rewrite !DecimalField_amount_fits by lia. cbn [result_bind].
    unfold PortfolioSummarySerializer.DecimalField. rewrite round2_hundredths.
    assert (Hp : -100 <= p /\ p <= 900).
    { destruct (Z.eq_dec invested 0) as [Hzero | Hnonzero].
      - rewrite (Hflat ltac:(lia)). split; lra.
      - assert (Hpos : (0 < invested)%Z) by lia.
        rewrite (Hratio Hpos). unfold decimal.quotient.
        set (q := decimal.Decimal (value - invested) / decimal.Decimal invested).
        assert (Hlo : inject_Z (-1) <= q) by (apply ratio_ge; [exact Hpos | lia]).
        assert (Hhi : q <= inject_Z 9) by (apply ratio_le; [exact Hpos | lia]).
        assert (Hsmall : Qabs q < 10 ^ 28).
        { apply Qabs_Qlt_condition. change (inject_Z (-1)) with (-1) in Hlo.
          change (inject_Z 9) with 9 in Hhi.
          assert (9 < 10 ^ 28) by reflexivity. split; lra. }
        destruct (round_context_integer_bounds (-1) q Hsmall) as [Hlow _].
        destruct (round_context_integer_bounds 9 q Hsmall) as [_ Hhigh].
        specialize (Hlow Hlo). specialize (Hhigh Hhi).
        change (inject_Z (-1)) with (-1) in Hlow. change (inject_Z 9) with 9 in Hhigh.
        split; lra. }
    assert (Hlow : (-10000 <= decimal.round_half_even (p * 100))%Z).
    { apply round_half_even_lower. change (inject_Z (-10000)) with (-10000). lra. }
    assert (Hhigh : (decimal.round_half_even (p * 100) <= 90000)%Z).
    { apply round_half_even_upper. change (inject_Z 90000) with 90000. lra. }
    rewrite DecimalField_amount_fits by (change (10 ^ 5)%Z with 100000%Z; lia).
    eexists. split; [reflexivity|]. simpl. repeat split; assumption.
Qed.

Lemma portfolio_summary_widths_witness :
  PortfolioViewSet.summary example_user gain_db = Raise InvalidOperation.
Proof.
  apply (proj1 (portfolio_summary_widths example_user gain_db)).
  - reflexivity.
  - discriminate.
Defined.

Local Close Scope Q_scope.

(** ** The performance of any portfolio *)

Section PerformanceTotal.
Variable float : Type.
Variable float_of_decimal : Q -> float.
Variable float_add : float -> float -> float.
Variable float_zero : float.
Variable float_le : float -> float -> bool.

(** X20.  The performance operation answers for every portfolio, whatever
    the comparison of floats does: for a user without holdings the answer
    is the message 'No holdings found' with neither a best nor a worst
    performer, and otherwise it lists exactly one item for each holding of
    the user, that is a rearrangement of the items of the holdings. *)
Theorem performance_answers :
  forall user db,
    (PortfolioViewSet.holdings_of user db = [] ->
     PortfolioViewSet.performance float float_of_decimal float_add float_zero
       float_le user db
     = Ok (PortfolioViewSet.NoHoldings float)) /\
    (PortfolioViewSet.holdings_of user db <> [] ->
     exists total_return best worst all_performances,
       PortfolioViewSet.performance float float_of_decimal float_add float_zero
         float_le user db
       = Ok (PortfolioViewSet.Performance float total_return best worst
               all_performances) /\
       Permutation
         (map (PortfolioViewSet.item_of float float_of_decimal)
              (PortfolioViewSet.holdings_of user db))
         all_performances /\
       List.length all_performances
       = List.length (PortfolioViewSet.holdings_of user db)).
Proof.
  intros user db. unfold PortfolioViewSet.performance.
  destruct (PortfolioViewSet.holdings_of user db) as [|h hs].
  - split; [reflexivity | contradiction].
  - split; [discriminate|]. intros _.
    rewrite collect_items. cbn [result_bind].
    eexists. eexists. eexists. eexists. split; [reflexivity|].
    pose proof (sort_perm float float_le
                  (map (PortfolioViewSet.item_of float float_of_decimal) (h :: hs)))
      as Hperm.
    split; [exact Hperm|].
    rewrite <- (Permutation_length Hperm). apply length_map.
Qed.
End PerformanceTotal.
